(** * video_converter.py: the folder pairer, the header stripper, the folder
      converter and the batch driver, over a model of the file system.

    The converter is a Python class [VideoConverter] whose methods read and
    write files through [pathlib] and [open], log through [logging], and call
    the external [ffmpeg] through [subprocess.run].  The embedding keeps that
    shape:

    - strings and [pathlib] path operations ([name], [stem], [suffix],
      [with_suffix], [/]) are functions on [string] and on lists of path
      components;
    - the file system is a tree of [File] and [Dir] nodes; a directory keeps
      its entries as an association list, whose order is the order in which
      the directory is enumerated;
    - every method is a computation that takes the file system and gives back
      either a value or a raised exception, the file system it leaves behind,
      and the log records it wrote;
    - [ffmpeg] is a variable of the section: any function from the file
      system to an outcome and a new file system. *)

From Stdlib Require Import List String Ascii Bool Arith Lia Permutation.
From Stdlib.Strings Require Import Byte.
Import ListNotations.

Open Scope string_scope.
Open Scope list_scope.

(** ** Python strings *)

Module PyStr.

Definition chars : string -> list ascii := list_ascii_of_string.
Definition str : list ascii -> string := string_of_list_ascii.

Definition chars_eqb (l1 l2 : list ascii) : bool :=
  String.eqb (str l1) (str l2).

(** [s.endswith(suf)] *)
Definition endswith (s suf : string) : bool :=
  (String.length suf <=? String.length s)%nat &&
  chars_eqb (skipn (String.length s - String.length suf) (chars s)) (chars suf).

(** [s.rfind(c)] for a one-character [c]: the index of its last occurrence,
    [None] standing for Python's [-1]. *)
Fixpoint rfind (c : ascii) (l : list ascii) : option nat :=
  match l with
  | [] => None
  | x :: l' =>
      match rfind c l' with
      | Some i => Some (S i)
      | None => if Ascii.eqb x c then Some 0 else None
      end
  end.

(** [s[i:]] and [s[:i]] for [0 <= i]. *)
Definition slice_from (i : nat) (s : string) : string := str (skipn i (chars s)).
Definition slice_to (i : nat) (s : string) : string := str (firstn i (chars s)).

End PyStr.

(** ** Exceptions and outcomes *)

(** The exception classes the converter can meet.  [OSError] stands for the
    remaining operating-system errors (directory not empty, busy, invalid
    argument); every class here is a subclass of Python's [Exception]. *)
Inductive exn : Type :=
  | FileNotFoundError
  | NotADirectoryError
  | IsADirectoryError
  | FileExistsError
  | PermissionError
  | OSError
  | ValueError
  | CalledProcessError.

(** What evaluating a Python expression gives: a value, or a raised
    exception. *)
Inductive outcome (A : Type) : Type :=
  | Ret (a : A)
  | Raise (e : exn).

Arguments Ret {A} a.
Arguments Raise {A} e.

Definition raised {A : Type} (o : outcome A) : bool :=
  match o with Ret _ => false | Raise _ => true end.

(** ** pathlib: pure paths *)

Module PurePath.

Import PyStr.

(** A path is the list of its components below the root of the modelled
    tree, outermost first. *)
Definition path := list string.

Definition path_eqb (p q : path) : bool :=
  if list_eq_dec string_dec p q then true else false.

(** [p.name]: the last component, [""] for the root. *)
Definition name (p : path) : string := last p "".

(** [p.parent] *)
Definition parent (p : path) : path := removelast p.

(** [p / child] for a one-component [child]. *)
Definition joinpath (p : path) (child : string) : path := p ++ [child].

(** [PurePath.suffix] and [PurePath.stem] on the name:
    [i = name.rfind('.')], and the suffix is [name[i:]] if
    [0 < i < len(name) - 1], else empty. *)
Definition has_suffix_at (nm : string) : option nat :=
  match rfind "."%char (chars nm) with
  | Some i => if ((0 <? i) && (i <? String.length nm - 1))%nat then Some i else None
  | None => None
  end.

Definition suffix_of_name (nm : string) : string :=
  match has_suffix_at nm with
  | Some i => slice_from i nm
  | None => ""
  end.

Definition stem_of_name (nm : string) : string :=
  match has_suffix_at nm with
  | Some i => slice_to i nm
  | None => nm
  end.

Definition suffix (p : path) : string := suffix_of_name (name p).
Definition stem (p : path) : string := stem_of_name (name p).

(** The check [with_suffix] makes on its argument: no separator in it, and
    either empty or a dot followed by something. *)
Definition valid_suffix (sfx : string) : bool :=
  negb (existsb (Ascii.eqb "/"%char) (chars sfx)) &&
  negb (negb (String.eqb sfx "") && negb (String.prefix "." sfx)) &&
  negb (String.eqb sfx ".").

(** [p.with_suffix(sfx)]: raises [ValueError] on an invalid suffix or an
    empty name; otherwise the old suffix, if any, is cut off the name and
    [sfx] is appended. *)
Definition with_suffix (p : path) (sfx : string) : outcome path :=
  if negb (valid_suffix sfx) then Raise ValueError
  else
    let nm := name p in
    if String.eqb nm "" then Raise ValueError
    else
      let old_suffix := suffix p in
      let nm' :=
        if String.eqb old_suffix "" then (nm ++ sfx)%string
        else (slice_to (String.length nm - String.length old_suffix) nm ++ sfx)%string in
      Ret (joinpath (parent p) nm').

End PurePath.

(** ** The file system *)

Module FS.

Import PurePath.

(** A regular file holds bytes.  A directory holds named entries in
    enumeration order, and a flag telling whether the process may add,
    remove or rename entries in it (write permission on the directory).
    Files are always readable and writable; there are no symbolic links. *)
#[warnings="-register-all"]
Inductive node : Type :=
  | File (data : list byte)
  | Dir (writable : bool) (entries : list (string * node)).

Fixpoint assoc (c : string) (es : list (string * node)) : option node :=
  match es with
  | [] => None
  | (c', n) :: es' => if String.eqb c c' then Some n else assoc c es'
  end.

(** Replace the entry named [c], or add it at the end. *)
Fixpoint set_entry (c : string) (x : node) (es : list (string * node))
  : list (string * node) :=
  match es with
  | [] => [(c, x)]
  | (c', n) :: es' =>
      if String.eqb c c' then (c, x) :: es' else (c', n) :: set_entry c x es'
  end.

Definition del_entry (c : string) (es : list (string * node))
  : list (string * node) :=
  filter (fun e => negb (String.eqb c (fst e))) es.

(** Path resolution from the root [w]: a component under a regular file
    gives ENOTDIR, a missing component gives ENOENT. *)
Fixpoint resolve (w : node) (p : path) : outcome node :=
  match p with
  | [] => Ret w
  | c :: p' =>
      match w with
      | File _ => Raise NotADirectoryError
      | Dir _ es =>
          match assoc c es with
          | Some n => resolve n p'
          | None => Raise FileNotFoundError
          end
      end
  end.

(** The tree with the node at [p] set to [x]; the parent of [p] has to be a
    directory, otherwise the tree is unchanged. *)
Fixpoint put (w : node) (p : path) (x : node) : node :=
  match p with
  | [] => x
  | c :: p' =>
      match w with
      | File _ => w
      | Dir wr es =>
          match p', assoc c es with
          | [], _ => Dir wr (set_entry c x es)
          | _ :: _, Some n => Dir wr (set_entry c (put n p' x) es)
          | _ :: _, None => w
          end
      end
  end.

(** The tree without the entry at [p]. *)
Fixpoint del (w : node) (p : path) : node :=
  match p with
  | [] => w
  | c :: p' =>
      match w with
      | File _ => w
      | Dir wr es =>
          match p', assoc c es with
          | [], _ => Dir wr (del_entry c es)
          | _ :: _, Some n => Dir wr (set_entry c (del n p') es)
          | _ :: _, None => w
          end
      end
  end.

(** [Path.exists()], [Path.is_dir()]: both answer [False] on any lookup
    error. *)
Definition exists_ (w : node) (p : path) : bool :=
  match resolve w p with Ret _ => true | Raise _ => false end.

Definition is_dir (w : node) (p : path) : bool :=
  match resolve w p with Ret (Dir _ _) => true | _ => false end.

Definition dir_writable (w : node) (d : path) : bool :=
  match resolve w d with Ret (Dir wr _) => wr | _ => false end.

(** [os.listdir], as [Path.iterdir] uses it: the children of [d] in
    enumeration order. *)
Definition listdir (w : node) (d : path) : outcome (list path) :=
  match resolve w d with
  | Ret (Dir _ es) => Ret (map (fun e => joinpath d (fst e)) es)
  | Ret (File _) => Raise NotADirectoryError
  | Raise e => Raise e
  end.

(** [Path.stat().st_size].  A directory reports a size that depends on the
    file system; the model reports 0 (the size only reaches the log). *)
Definition st_size (n : node) : nat :=
  match n with File data => List.length data | Dir _ _ => 0 end.

(** [open(p, 'rb')] followed by reading: which bytes the handle gives from
    offset 0 on. *)
Definition read_bytes (w : node) (p : path) : outcome (list byte) :=
  match resolve w p with
  | Ret (File data) => Ret data
  | Ret (Dir _ _) => Raise IsADirectoryError
  | Raise e => Raise e
  end.

(** [open(p, 'wb')]: an existing regular file is truncated; a missing one is
    created, which needs a writable parent directory. *)
Definition open_wb (w : node) (p : path) : outcome unit :=
  match resolve w p with
  | Ret (File _) => Ret tt
  | Ret (Dir _ _) => Raise IsADirectoryError
  | Raise NotADirectoryError => Raise NotADirectoryError
  | Raise _ =>
      match resolve w (parent p) with
      | Ret (Dir true _) => Ret tt
      | Ret (Dir false _) => Raise PermissionError
      | Ret (File _) => Raise NotADirectoryError
      | Raise e => Raise e
      end
  end.

(** [Path.unlink()], with the order of checks of Linux: the directory's
    write permission first, then EISDIR for a directory. *)
Definition unlink (w : node) (p : path) : outcome unit * node :=
  match resolve w p with
  | Raise e => (Raise e, w)
  | Ret n =>
      match p with
      | [] => (Raise IsADirectoryError, w)
      | _ :: _ =>
          if negb (dir_writable w (parent p)) then (Raise PermissionError, w)
          else match n with
               | Dir _ _ => (Raise IsADirectoryError, w)
               | File _ => (Ret tt, del w p)
               end
      end
  end.

Fixpoint is_prefix (p q : path) : bool :=
  match p, q with
  | [], _ => true
  | _ :: _, [] => false
  | a :: p', b :: q' => String.eqb a b && is_prefix p' q'
  end.

(** [Path.rename(dst)], that is POSIX [rename]: a regular file silently
    replaces an existing regular file; a directory replaces only an empty
    directory and cannot be moved below itself. *)
Definition rename (w : node) (src dst : path) : outcome unit * node :=
  match resolve w src with
  | Raise e => (Raise e, w)
  | Ret n =>
      match resolve w (parent dst) with
      | Raise e => (Raise e, w)
      | Ret (File _) => (Raise NotADirectoryError, w)
      | Ret (Dir wd _) =>
          match src, dst with
          | [], _ | _, [] => (Raise OSError, w)
          | _ :: _, _ :: _ =>
              if path_eqb src dst then (Ret tt, w)
              else if negb (dir_writable w (parent src) && wd)
              then (Raise PermissionError, w)
              else
                match n, resolve w dst with
                | File _, Ret (Dir _ _) => (Raise IsADirectoryError, w)
                | File _, _ => (Ret tt, put (del w src) dst n)
                | Dir _ _, Ret (File _) => (Raise NotADirectoryError, w)
                | Dir _ _, Ret (Dir _ (_ :: _)) => (Raise OSError, w)
                | Dir _ _, _ =>
                    if is_prefix src dst then (Raise OSError, w)
                    else (Ret tt, put (del w src) dst n)
                end
          end
      end
  end.

(** [os.mkdir(p)]: the parent has to exist and be a writable directory, and
    [p] must not exist. *)
Definition os_mkdir (w : node) (p : path) : outcome unit * node :=
  match p with
  | [] => (Raise FileExistsError, w)
  | _ :: _ =>
      match resolve w (parent p) with
      | Raise e => (Raise e, w)
      | Ret (File _) => (Raise NotADirectoryError, w)
      | Ret (Dir wr _) =>
          match resolve w p with
          | Ret _ => (Raise FileExistsError, w)
          | Raise _ =>
              if wr then (Ret tt, put w p (Dir true []))
              else (Raise PermissionError, w)
          end
      end
  end.

(** [open(p, 'wb')], [write(data)] and close.  The write itself cannot fail
    in the model (the disk is never full). *)
Definition write_bytes (w : node) (p : path) (data : list byte)
  : outcome unit * node :=
  match open_wb w p with
  | Ret _ => (Ret tt, put w p (File data))
  | Raise e => (Raise e, w)
  end.

(** [Path.stat()] *)
Definition stat (w : node) (p : path) : outcome node := resolve w p.

(** [Path.mkdir(exist_ok=...)] with [parents=False]: a missing parent is
    re-raised; any other error is swallowed when [exist_ok] holds and the
    path is a directory. *)
Definition mkdir (w : node) (p : path) (exist_ok : bool)
  : outcome unit * node :=
  match os_mkdir w p with
  | (Raise FileNotFoundError, w') => (Raise FileNotFoundError, w')
  | (Raise e, w') =>
      if exist_ok && is_dir w' p then (Ret tt, w') else (Raise e, w')
  | (Ret u, w') => (Ret u, w')
  end.

(** [Path.glob("*" + ext)]: the children whose name ends with [ext], in
    enumeration order; nothing when the path is not a directory. *)
Definition glob_ext (w : node) (d : path) (ext : string) : list path :=
  match listdir w d with
  | Ret l => filter (fun p => PyStr.endswith (name p) ext) l
  | Raise _ => []
  end.

End FS.

(** ** Log records and computations *)

(** One constructor for each [logger] call of the source, with the values
    the message is formatted from. *)
Inductive log_record : Type :=
  | HeaderRemoved (file_name : string)
  | StripError (file_path : PurePath.path) (e : exn)
  | WrongCount (folder_name : string) (found : nat)
  | VideoFound (file_name : string) (size : nat)
  | AudioFound (file_name : string) (size : nat)
  | UnknownKind (file_name : string)
  | PairNotFound (folder_name : string)
  | NamingHint
  | MergeDone (output_name : string)
  | MergeFailed
  | MergeStderr
  | FfmpegNotFound
  | FolderStart (folder_name : string)
  | RenameError (e : exn)
  | CleanupError (e : exn)
  | InputMissing (input_dir : PurePath.path)
  | Converted (folder_name : string)
  | Failed (folder_name : string)
  | Summary (success_count total_folders : nat)
  | OutputDir (output_dir : PurePath.path).

(** The result of running a method from a given file system. *)
Record run (A : Type) : Type := Run {
  res : outcome A;
  fs_after : FS.node;
  logged : list log_record
}.

Arguments Run {A} res fs_after logged.
Arguments res {A} r.
Arguments fs_after {A} r.
Arguments logged {A} r.

Definition M (A : Type) : Type := FS.node -> run A.

Definition ret {A : Type} (a : A) : M A := fun w => Run (Ret a) w [].

Definition raise {A : Type} (e : exn) : M A := fun w => Run (Raise e) w [].

Definition bind {A B : Type} (m : M A) (f : A -> M B) : M B :=
  fun w =>
    let r := m w in
    match res r with
    | Ret a =>
        let r' := f a (fs_after r) in
        Run (res r') (fs_after r') (logged r ++ logged r')
    | Raise e => Run (Raise e) (fs_after r) (logged r)
    end.

(** [try: m] followed by [except] clauses: [handler e] is the body of the
    clause that matches [e], or [None] when no clause does and [e] goes on
    propagating. *)
Definition try_catch {A : Type} (m : M A) (handler : exn -> option (M A))
  : M A :=
  fun w =>
    let r := m w in
    match res r with
    | Ret a => r
    | Raise e =>
        match handler e with
        | Some h =>
            let r' := h (fs_after r) in
            Run (res r') (fs_after r') (logged r ++ logged r')
        | None => r
        end
    end.

(** [try: m  except Exception as e: handler e] *)
Definition try_except {A : Type} (m : M A) (handler : exn -> M A) : M A :=
  try_catch m (fun e => Some (handler e)).

Definition log (l : log_record) : M unit := fun w => Run (Ret tt) w [l].

(** A file-system call that only looks. *)
Definition peek {A : Type} (f : FS.node -> outcome A) : M A :=
  fun w => Run (f w) w [].

(** A file-system call that may change the tree. *)
Definition act {A : Type} (f : FS.node -> outcome A * FS.node) : M A :=
  fun w => Run (fst (f w)) (snd (f w)) [].

Definition lift {A : Type} (o : outcome A) : M A := fun w => Run o w [].

Declare Scope py_scope.
Delimit Scope py_scope with py.
Notation "x <- m ;; k" := (bind m (fun x => k))
  (at level 61, m at next level, right associativity) : py_scope.
Notation "m ;; k" := (bind m (fun _ => k))
  (at level 61, right associativity) : py_scope.

(** ** class VideoConverter *)

Module VideoConverter.

Import PurePath.
Local Open Scope py_scope.

(** The two attributes [__init__] sets. *)
Record t : Type := Build {
  input_dir : path;
  output_dir : path
}.

(** The number of header bytes [remove_encryption_header] skips. *)
Definition HEADER_LEN : nat := 9.

Section Methods.

(** [subprocess.run(['ffmpeg', '-i', video, '-i', audio, '-c', 'copy', '-y',
    output], capture_output=True, text=True, check=True)]: the external
    muxer.  It returns, or raises [CalledProcessError] on a non-zero exit,
    [FileNotFoundError] when there is no [ffmpeg] to run, or some other
    exception; and it may change the file system. *)
Variable ffmpeg : path -> path -> path -> FS.node -> outcome unit * FS.node.

(** [VideoConverter.__init__] *)
Definition __init__ (input_dir : path) : M t :=
  let self_input_dir := input_dir in
  let self_output_dir := joinpath self_input_dir "converted_videos" in
  act (fun w => FS.mkdir w self_output_dir true) ;;
  ret (Build self_input_dir self_output_dir).

(** [VideoConverter.remove_encryption_header]: the temporary file's path, or
    [None] after a logged error.  [with_suffix] stands before the [try]. *)
Definition remove_encryption_header (self : t) (file_path : path)
  : M (option path) :=
  temp_file <- lift (with_suffix file_path ".temp") ;;
  try_except
    (content <- (data <- peek (fun w => FS.read_bytes w file_path) ;;
                 ret (skipn HEADER_LEN data)) ;;
     act (fun w => FS.write_bytes w temp_file content) ;;
     log (HeaderRemoved (name file_path)) ;;
     ret (Some temp_file))
    (fun e =>
       log (StripError file_path e) ;;
       ret None).

(** The [for file in m4s_files] loop of [find_m4s_files], with the two
    local variables it assigns. *)
Fixpoint classify (m4s_files : list path) (video_file audio_file : option path)
  : M (option path * option path) :=
  match m4s_files with
  | [] => ret (video_file, audio_file)
  | file :: rest =>
      let file_stem := stem file in
      if PyStr.endswith file_stem "080" then
        st <- peek (fun w => FS.stat w file) ;;
        log (VideoFound (name file) (FS.st_size st)) ;;
        classify rest (Some file) audio_file
      else if PyStr.endswith file_stem "280" then
        st <- peek (fun w => FS.stat w file) ;;
        log (AudioFound (name file) (FS.st_size st)) ;;
        classify rest video_file (Some file)
      else
        log (UnknownKind (name file)) ;;
        classify rest video_file audio_file
  end.

(** [VideoConverter.find_m4s_files]: [(video, audio)] or [(None, None)]. *)
Definition find_m4s_files (self : t) (folder_path : path)
  : M (option path * option path) :=
  m4s_files <- peek (fun w => Ret (FS.glob_ext w folder_path ".m4s")) ;;
  if negb (List.length m4s_files =? 2)%nat then
    log (WrongCount (name folder_path) (List.length m4s_files)) ;;
    ret (None, None)
  else
    r <- classify m4s_files None None ;;
    match r with
    | (Some video_file, Some audio_file) => ret (Some video_file, Some audio_file)
    | _ =>
        log (PairNotFound (name folder_path)) ;;
        log NamingHint ;;
        ret (None, None)
    end.

(** [VideoConverter.merge_video_audio]: only [CalledProcessError] and
    [FileNotFoundError] have an [except] clause. *)
Definition merge_video_audio (self : t) (video_file audio_file output_file : path)
  : M bool :=
  try_catch
    (act (ffmpeg video_file audio_file output_file) ;;
     log (MergeDone (name output_file)) ;;
     ret true)
    (fun e =>
       match e with
       | CalledProcessError =>
           Some (log MergeFailed ;; log MergeStderr ;; ret false)
       | FileNotFoundError =>
           Some (log FfmpegNotFound ;; ret false)
       | _ => None
       end).

(** [VideoConverter.convert_single_folder] *)
Definition convert_single_folder (self : t) (folder_path : path) : M bool :=
  log (FolderStart (name folder_path)) ;;
  found <- find_m4s_files self folder_path ;;
  match found with
  | (Some video_m4s, Some audio_m4s) =>
      video_temp <- remove_encryption_header self video_m4s ;;
      match video_temp with
      | None => ret false
      | Some video_temp =>
          audio_temp <- remove_encryption_header self audio_m4s ;;
          match audio_temp with
          | None =>
              act (fun w => FS.unlink w video_temp) ;;
              ret false
          | Some audio_temp =>
              video_mp4 <- lift (with_suffix video_temp ".mp4") ;;
              audio_mp4 <- lift (with_suffix audio_temp ".mp4") ;;
              early <- try_except
                         (act (fun w => FS.rename w video_temp video_mp4) ;;
                          act (fun w => FS.rename w audio_temp audio_mp4) ;;
                          ret None)
                         (fun e =>
                            log (RenameError e) ;;
                            ret (Some false)) ;;
              match early with
              | Some b => ret b
              | None =>
                  let output_file :=
                    joinpath (output_dir self) (name folder_path ++ ".mp4")%string in
                  success <- merge_video_audio self video_mp4 audio_mp4 output_file ;;
                  try_except
                    (act (fun w => FS.unlink w video_mp4) ;;
                     act (fun w => FS.unlink w audio_mp4))
                    (fun e => log (CleanupError e)) ;;
                  ret success
              end
          end
      end
  | _ => ret false
  end.

(** The [for folder_path in self.input_dir.iterdir()] loop of
    [convert_all], with its two counters. *)
Fixpoint convert_loop (self : t) (folders : list path)
    (success_count total_folders : nat) : M (nat * nat) :=
  match folders with
  | [] => ret (success_count, total_folders)
  | folder_path :: rest =>
      d <- peek (fun w => Ret (FS.is_dir w folder_path)) ;;
      if d && negb (String.eqb (name folder_path) "converted_videos") then
        let total_folders := S total_folders in
        ok <- convert_single_folder self folder_path ;;
        if ok then
          let success_count := S success_count in
          log (Converted (name folder_path)) ;;
          convert_loop self rest success_count total_folders
        else
          log (Failed (name folder_path)) ;;
          convert_loop self rest success_count total_folders
      else convert_loop self rest success_count total_folders
  end.

(** [VideoConverter.convert_all]: returns [success_count]. *)
Definition convert_all (self : t) : M nat :=
  e <- peek (fun w => Ret (FS.exists_ w (input_dir self))) ;;
  if negb e then
    log (InputMissing (input_dir self)) ;;
    ret 0
  else
    folders <- peek (fun w => FS.listdir w (input_dir self)) ;;
    counts <- convert_loop self folders 0 0 ;;
    log (Summary (fst counts) (snd counts)) ;;
    log (OutputDir (output_dir self)) ;;
    ret (fst counts).

End Methods.

End VideoConverter.

(** * Notions the statements use *)

Module Notions.

Import PyStr PurePath FS.
Local Open Scope py_scope.

(** What a computation writes to the log, as a property of each record. *)
Definition emits {A : Type} (P : log_record -> Prop) (m : M A) : Prop :=
  forall w, Forall P (logged (m w)).

(** A computation that leaves the file system as it found it. *)
Definition pure_fs {A : Type} (m : M A) : Prop :=
  forall w, fs_after (m w) = w.

(** A fragment file carries video if its stem ends with 080, audio if it
    ends with 280. *)
Definition is_video (p : path) : bool := endswith (stem p) "080".
Definition is_audio (p : path) : bool := endswith (stem p) "280".

(** The two ways a folder with two fragment files has one file of each
    role. *)
Definition one_of_each (x y : path) : bool :=
  (is_video x && is_audio y) || (is_audio x && is_video y).

(** The last [n] bytes of [data]. *)
Definition last_bytes (n : nat) (data : list byte) : list byte :=
  skipn (List.length data - n) data.

(** The [try] body at the rename step of [convert_single_folder]. *)
Definition promote (video_temp video_mp4 audio_temp audio_mp4 : path)
  : M (option bool) :=
  act (fun w => FS.rename w video_temp video_mp4) ;;
  act (fun w => FS.rename w audio_temp audio_mp4) ;;
  ret None.

(** The test at the head of the loop body of [convert_all]. *)
Definition selected (w : node) (folder_path : path) : bool :=
  is_dir w folder_path
  && negb (String.eqb (name folder_path) "converted_videos").

(** The records the steps inside a folder's conversion write: everything
    but the records of [convert_single_folder]'s first line and of
    [convert_all]. *)
Definition from_steps (r : log_record) : Prop :=
  match r with
  | FolderStart _ | Converted _ | Failed _
  | InputMissing _ | Summary _ _ | OutputDir _ => False
  | _ => True
  end.

(** What the loop writes: records of the steps, and for a folder it
    selected the three records that carry the folder's name. *)
Definition loop_record (r : log_record) : Prop :=
  from_steps r \/
  exists nm, nm <> "converted_videos" /\
             (r = FolderStart nm \/ r = Converted nm \/ r = Failed nm).

(** The records of [convert_all] itself. *)
Definition driver_record (r : log_record) : Prop :=
  match r with
  | InputMissing _ | Summary _ _ | OutputDir _ => True
  | _ => False
  end.

Definition is_start (r : log_record) : bool :=
  match r with FolderStart _ => true | _ => false end.


(** The folders a run attempted and those it converted, as its log tells:
    one [FolderStart] for each call of [convert_single_folder], one
    [Converted] for each call that returned [True]. *)
Definition attempted (l : list log_record) : nat :=
  List.length (filter is_start l).


(** An entry that is not a directory: a regular file, or nothing. *)
Definition not_dir (o : option node) : bool :=
  match o with Some (Dir _ _) => false | _ => true end.

Definition is_some (o : option node) : bool :=
  match o with Some _ => true | None => false end.

(** What [merge_video_audio] turns into a boolean: a return, or one of the
    two exceptions it has a clause for. *)
Definition handled (o : outcome unit) : bool :=
  match o with
  | Ret _ | Raise CalledProcessError | Raise FileNotFoundError => true
  | Raise _ => false
  end.

(** The [try] body at the cleanup step of [convert_single_folder]. *)
Definition cleanup (video_mp4 audio_mp4 : path) : M unit :=
  act (fun w => FS.unlink w video_mp4) ;;
  act (fun w => FS.unlink w audio_mp4).

(** [l] is [l'] with some elements left out, order kept. *)
Inductive subseq {A : Type} : list A -> list A -> Prop :=
  | subseq_nil : subseq [] []
  | subseq_skip (x : A) (l l' : list A) : subseq l l' -> subseq l (x :: l')
  | subseq_keep (x : A) (l l' : list A) :
      subseq l l' -> subseq (x :: l) (x :: l').

(** The entries of the input root that [convert_all] may start on, by
    name. *)
Definition candidates (folders : list path) : list path :=
  filter (fun f => negb (String.eqb (name f) "converted_videos")) folders.

(** The [FolderStart] records of a log, in order. *)
Definition starts (l : list log_record) : list log_record :=
  filter is_start l.

(** The names [convert_single_folder] gives the intermediate files of a
    fragment, and the four of them for a pair. *)
Definition temp_name (p : path) : string := (stem p ++ ".temp")%string.
Definition mp4_name (p : path) : string := (stem p ++ ".mp4")%string.

Definition intermediates (v a : path) : list string :=
  [temp_name v; temp_name a; mp4_name v; mp4_name a].

(** [self.output_dir / f"{folder_path.name}.mp4"] *)
Definition output_file (self : VideoConverter.t) (folder : path) : path :=
  joinpath (VideoConverter.output_dir self) (name folder ++ ".mp4")%string.

(** The file system with both fragments stripped and promoted: what the
    muxer is called on when every step before it went through. *)
Definition staged (w : node) (folder v a : path) (dv da : list byte) : node :=
  let V := File (skipn VideoConverter.HEADER_LEN dv) in
  let A := File (skipn VideoConverter.HEADER_LEN da) in
  put (del (put (del (put (put w (joinpath folder (temp_name v)) V)
                          (joinpath folder (temp_name a)) A)
                     (joinpath folder (temp_name v)))
                (joinpath folder (mp4_name v)) V)
           (joinpath folder (temp_name a)))
      (joinpath folder (mp4_name a)) A.

(** The muxer call of that conversion. *)
Definition mux_call
    (ffmpeg : path -> path -> path -> node -> outcome unit * node)
    (self : VideoConverter.t) (folder v a : path) (dv da : list byte)
    (w : node) : outcome unit * node :=
  ffmpeg (joinpath folder (mp4_name v)) (joinpath folder (mp4_name a))
         (output_file self folder) (staged w folder v a dv da).

(** What lets a conversion go through: the folder pairs, both fragments
    can be read, the folder is writable, no directory sits under one of
    the four intermediate names, and the muxer returns or fails in one of
    the two handled ways and leaves the folder alone. *)
Definition goes_through
    (ffmpeg : path -> path -> path -> node -> outcome unit * node)
    (self : VideoConverter.t) (folder v a : path) (dv da : list byte)
    (w : node) : Prop :=
  res (VideoConverter.find_m4s_files self folder w) = Ret (Some v, Some a) /\
  read_bytes w v = Ret dv /\ read_bytes w a = Ret da /\
  dir_writable w folder = true /\
  forallb (fun c => negb (is_dir w (joinpath folder c))) (intermediates v a)
  = true /\
  handled (fst (mux_call ffmpeg self folder v a dv da w)) = true /\
  resolve (snd (mux_call ffmpeg self folder v a dv da w)) folder
  = resolve (staged w folder v a dv da) folder.

End Notions.

(** ** Sample file systems *)

Module Samples.

Import PurePath FS VideoConverter.

Definition header : list byte := [x00; x01; x02; x03; x04; x05; x06; x07; x08].
Definition video_payload : list byte := [x76; x69; x64].
Definition audio_payload : list byte := [x61; x75].

(** A muxer that writes the video bytes followed by the audio bytes, and
    exits non-zero when it cannot read an input. *)
Definition mux_concat (video audio output : path) (w : node)
  : outcome unit * node :=
  match read_bytes w video, read_bytes w audio with
  | Ret dv, Ret da =>
      match write_bytes w output (dv ++ da) with
      | (Ret _, w') => (Ret tt, w')
      | (Raise _, w') => (Raise CalledProcessError, w')
      end
  | _, _ => (Raise CalledProcessError, w)
  end.

Definition self : t := Build [] ["converted_videos"].

Definition good_folder : node :=
  Dir true [("v080.m4s", File (header ++ video_payload));
            ("a280.m4s", File (header ++ audio_payload))].

(** The same two fragments, listed audio first. *)
Definition good_folder_swapped : node :=
  Dir true [("a280.m4s", File (header ++ audio_payload));
            ("v080.m4s", File (header ++ video_payload))].

Definition one_fragment_folder : node :=
  Dir true [("v080.m4s", File (header ++ video_payload))].

Definition two_videos_folder : node :=
  Dir true [("x080.m4s", File (header ++ video_payload));
            ("y080.m4s", File (header ++ video_payload))].


(** A directory sits where the video is to be promoted: the first rename
    fails. *)
Definition blocked_rename_folder : node :=
  Dir true [("v080.m4s", File (header ++ video_payload));
            ("a280.m4s", File (header ++ audio_payload));
            ("v080.mp4", Dir true [])].

(** A folder without write permission that still holds the video
    temporary file of an earlier run. *)
Definition read_only_folder : node :=
  Dir false [("v080.m4s", File (header ++ video_payload));
             ("a280.m4s", File (header ++ audio_payload));
             ("v080.temp", File [])].

Definition short_folder : node :=
  Dir true [("v080.m4s", File [x00; x01; x02])].

(** A folder that already holds a file under the promoted video's name,
    and other files beside the fragments. *)
Definition crowded_folder : node :=
  Dir true [("cover.jpg", File [x01; x02]);
            ("v080.m4s", File (header ++ video_payload));
            ("v080.mp4", File [x09]);
            ("a280.m4s", File (header ++ audio_payload))].

Definition root_of (folders : list (string * node)) : node :=
  Dir true (folders ++ [("converted_videos", Dir true [])]).

End Samples.

(** * Facts about the models *)

(** ** Strings and paths *)

Module PyStrFacts.

Import PyStr.

Lemma chars_length (s : string) : List.length (chars s) = String.length s.
Proof. induction s as [|c s IH]; simpl; [reflexivity | now rewrite IH]. Qed.

Lemma str_length (l : list ascii) : String.length (str l) = List.length l.
Proof. induction l as [|c l IH]; simpl; [reflexivity | now rewrite IH]. Qed.

Lemma chars_str (l : list ascii) : chars (str l) = l.
Proof. apply list_ascii_of_string_of_list_ascii. Qed.

Lemma str_chars (s : string) : str (chars s) = s.
Proof. apply string_of_list_ascii_of_string. Qed.

Lemma chars_app (s t : string) : chars (s ++ t)%string = chars s ++ chars t.
Proof. induction s as [|c s IH]; simpl; [reflexivity | now rewrite IH]. Qed.

Lemma chars_inj (s t : string) : chars s = chars t -> s = t.
Proof. intros H; rewrite <- (str_chars s), <- (str_chars t); now rewrite H. Qed.

Lemma chars_eqb_eq (l1 l2 : list ascii) : chars_eqb l1 l2 = true <-> l1 = l2.
Proof.
  unfold chars_eqb; rewrite String.eqb_eq; split; intros H.
  - rewrite <- (chars_str l1), <- (chars_str l2); now rewrite H.
  - now rewrite H.
Qed.

(** Appending the same text to two strings keeps them apart. *)
Lemma append_inv_tail (s1 s2 t : string) :
  (s1 ++ t)%string = (s2 ++ t)%string -> s1 = s2.
Proof.
  intros H; apply chars_inj.
  apply (f_equal chars) in H; rewrite !chars_app in H.
  now apply app_inv_tail in H.
Qed.

(** [endswith] says what it should: the string is some prefix followed by
    the suffix. *)
Lemma endswith_spec (s suf : string) :
  endswith s suf = true <-> exists pre, s = (pre ++ suf)%string.
Proof.
  unfold endswith; rewrite andb_true_iff, Nat.leb_le, chars_eqb_eq; split.
  - intros [Hle Heq].
    exists (str (firstn (String.length s - String.length suf) (chars s))).
    apply chars_inj; rewrite chars_app, chars_str, <- Heq.
    now rewrite firstn_skipn.
  - intros [pre ->]; split.
    + pose proof (f_equal (@List.length ascii) (chars_app pre suf)) as Hl.
      rewrite length_app, !chars_length in Hl; lia.
    + pose proof (chars_app pre suf) as Ha.
      pose proof (f_equal (@List.length ascii) Ha) as Hl.
      rewrite length_app, !chars_length in Hl.
      rewrite Ha, Hl.
      replace (String.length pre + String.length suf - String.length suf)
        with (List.length (chars pre)) by (rewrite chars_length; lia).
      now rewrite skipn_app, skipn_all, Nat.sub_diag.
Qed.

(** Two suffixes of the same length cannot both end a string unless they
    are the same. *)
Lemma endswith_same_length (s suf1 suf2 : string) :
  String.length suf1 = String.length suf2 ->
  endswith s suf1 = true -> endswith s suf2 = true -> suf1 = suf2.
Proof.
  unfold endswith; intros Hl H1 H2.
  apply andb_true_iff in H1 as [_ H1]; apply andb_true_iff in H2 as [_ H2].
  apply chars_eqb_eq in H1; apply chars_eqb_eq in H2.
  rewrite Hl in H1; apply chars_inj; congruence.
Qed.

Lemma endswith_080_not_280 (s : string) :
  endswith s "080" = true -> endswith s "280" = false.
Proof.
  intros H; destruct (endswith s "280") eqn:E; [|reflexivity].
  pose proof (endswith_same_length s "080" "280" eq_refl H E); discriminate.
Qed.

Lemma rfind_lt (c : ascii) (l : list ascii) (i : nat) :
  rfind c l = Some i -> i < List.length l.
Proof.
  revert i; induction l as [|x l IH]; simpl; intros i H; [discriminate|].
  destruct (rfind c l) as [j|].
  - injection H as <-; specialize (IH j eq_refl); lia.
  - destruct (Ascii.eqb x c); [injection H as <-; lia | discriminate].
Qed.

End PyStrFacts.

Module PurePathFacts.

Import PyStr PyStrFacts PurePath.

Lemma name_joinpath (p : path) (c : string) : name (joinpath p c) = c.
Proof. apply last_last. Qed.

Lemma parent_joinpath (p : path) (c : string) : parent (joinpath p c) = p.
Proof. apply removelast_last. Qed.

(** A path with a name is its parent joined with that name. *)
Lemma path_split (p : path) : p <> [] -> p = joinpath (parent p) (name p).
Proof. intros H; now apply app_removelast_last. Qed.

(** What [with_suffix] computes is the stem followed by the new suffix. *)
Lemma with_suffix_stem (p : path) (sfx : string) :
  valid_suffix sfx = true -> name p <> "" ->
  with_suffix p sfx = Ret (joinpath (parent p) (stem p ++ sfx)%string).
Proof.
  intros Hv Hn; unfold with_suffix; rewrite Hv; simpl.
  destruct (String.eqb_spec (name p) "") as [E|_]; [contradiction|].
  unfold suffix, stem, suffix_of_name, stem_of_name, has_suffix_at.
  destruct (rfind "."%char (chars (name p))) as [i|] eqn:Ei; [|reflexivity].
  destruct ((0 <? i) && (i <? String.length (name p) - 1))%nat eqn:Eb;
    [|reflexivity].
  apply andb_true_iff in Eb as [_ Eb]; apply Nat.ltb_lt in Eb.
  assert (Hlen : String.length (slice_from i (name p))
                 = String.length (name p) - i).
  { unfold slice_from; now rewrite str_length, length_skipn, chars_length. }
  destruct (String.eqb_spec (slice_from i (name p)) "") as [E|_].
  - rewrite E in Hlen; simpl in Hlen; lia.
  - rewrite Hlen.
    replace (String.length (name p) - (String.length (name p) - i)) with i
      by lia.
    reflexivity.
Qed.

Lemma with_suffix_ret (p p' : path) (sfx : string) :
  with_suffix p sfx = Ret p' -> valid_suffix sfx = true /\ name p <> "".
Proof.
  unfold with_suffix; destruct (valid_suffix sfx); simpl; [|discriminate].
  destruct (String.eqb_spec (name p) ""); [discriminate | now split].
Qed.

(** Files with different stems get different temporary names. *)
Lemma with_suffix_inj_stem (p q p' q' : path) (sfx : string) :
  with_suffix p sfx = Ret p' -> with_suffix q sfx = Ret q' ->
  stem p <> stem q -> name p' <> name q'.
Proof.
  intros Hp Hq Hs.
  destruct (with_suffix_ret _ _ _ Hp) as [Hv Hnp].
  destruct (with_suffix_ret _ _ _ Hq) as [_ Hnq].
  rewrite (with_suffix_stem p sfx Hv Hnp) in Hp.
  rewrite (with_suffix_stem q sfx Hv Hnq) in Hq.
  injection Hp as <-; injection Hq as <-.
  rewrite !name_joinpath; intros E; apply append_inv_tail in E; contradiction.
Qed.

End PurePathFacts.

(** ** The file-system tree *)

Module FSFacts.

Import PurePath PurePathFacts FS.

Lemma assoc_set_entry_same (c : string) (x : node) (es : list (string * node)) :
  assoc c (set_entry c x es) = Some x.
Proof.
  induction es as [|[c' n] es IH]; simpl.
  - now rewrite String.eqb_refl.
  - destruct (String.eqb c c') eqn:E; simpl; rewrite ?String.eqb_refl, ?E; auto.
Qed.

Lemma assoc_set_entry_other (c c' : string) (x : node) (es : list (string * node)) :
  c <> c' -> assoc c' (set_entry c x es) = assoc c' es.
Proof.
  intros Hne; induction es as [|[c0 n] es IH]; simpl.
  - destruct (String.eqb_spec c' c); [congruence | reflexivity].
  - destruct (String.eqb_spec c c0) as [->|]; simpl.
    + destruct (String.eqb_spec c' c0); [congruence | reflexivity].
    + now rewrite IH.
Qed.

Lemma assoc_del_entry_same (c : string) (es : list (string * node)) :
  assoc c (del_entry c es) = None.
Proof.
  induction es as [|[c' n] es IH]; simpl; [reflexivity|].
  destruct (String.eqb c c') eqn:E; simpl; [assumption | now rewrite E].
Qed.

Lemma assoc_del_entry_other (c c' : string) (es : list (string * node)) :
  c <> c' -> assoc c' (del_entry c es) = assoc c' es.
Proof.
  intros Hne; induction es as [|[c0 n] es IH]; simpl; [reflexivity|].
  destruct (String.eqb_spec c c0) as [->|]; simpl.
  - destruct (String.eqb_spec c' c0); [congruence | assumption].
  - now rewrite IH.
Qed.

Lemma assoc_In (c : string) (n : node) (es : list (string * node)) :
  In (c, n) es -> exists n', assoc c es = Some n'.
Proof.
  induction es as [|[c' n'] es IH]; simpl; [contradiction|].
  intros [E|H].
  - injection E as -> ->; rewrite String.eqb_refl; eauto.
  - destruct (String.eqb c c'); eauto.
Qed.

(** Resolution goes through a path piece by piece. *)
Lemma resolve_app (w : node) (p q : path) :
  resolve w (p ++ q) =
  match resolve w p with Ret n => resolve n q | Raise e => Raise e end.
Proof.
  revert w; induction p as [|c p IH]; intros w; simpl; [reflexivity|].
  destruct w as [|wr es]; [reflexivity|].
  destruct (assoc c es); [apply IH | reflexivity].
Qed.

(** Resolving a child is looking its name up in the parent directory. *)
Lemma resolve_child (w : node) (d : path) (c : string) (wr : bool)
    (es : list (string * node)) :
  resolve w d = Ret (Dir wr es) ->
  resolve w (joinpath d c) =
  match assoc c es with Some n => Ret n | None => Raise FileNotFoundError end.
Proof.
  intros H; unfold joinpath; rewrite resolve_app, H; simpl.
  now destruct (assoc c es).
Qed.

(** Whatever resolves has a parent that is a directory. *)
Lemma resolve_parent_dir (w : node) (d : path) (c : string) (n : node) :
  resolve w (joinpath d c) = Ret n ->
  exists wr es, resolve w d = Ret (Dir wr es) /\ assoc c es = Some n.
Proof.
  unfold joinpath; rewrite resolve_app.
  destruct (resolve w d) as [[|wr es]|]; simpl; try discriminate.
  destruct (assoc c es) eqn:E; [|discriminate].
  intros [= ->]; eauto.
Qed.

Lemma put_cons (wr : bool) (es : list (string * node)) (c : string)
    (p : path) (x : node) :
  p <> [] ->
  put (Dir wr es) (c :: p) x =
  match assoc c es with
  | Some n => Dir wr (set_entry c (put n p x) es)
  | None => Dir wr es
  end.
Proof. destruct p; [contradiction | reflexivity]. Qed.

Lemma del_cons (wr : bool) (es : list (string * node)) (c : string)
    (p : path) :
  p <> [] ->
  del (Dir wr es) (c :: p) =
  match assoc c es with
  | Some n => Dir wr (set_entry c (del n p) es)
  | None => Dir wr es
  end.
Proof. destruct p; [contradiction | reflexivity]. Qed.

Lemma snoc_not_nil (d : path) (c : string) : d ++ [c] <> [].
Proof. now destruct d. Qed.

(** [put] below a directory rewrites that directory's entry list. *)
Lemma resolve_put_parent (w : node) (d : path) (c : string) (x : node)
    (wr : bool) (es : list (string * node)) :
  resolve w d = Ret (Dir wr es) ->
  resolve (put w (joinpath d c) x) d = Ret (Dir wr (set_entry c x es)).
Proof.
  unfold joinpath; revert w; induction d as [|a d IH]; intros w H; simpl in H.
  - injection H as ->; reflexivity.
  - destruct w as [|wr0 es0]; [discriminate|].
    destruct (assoc a es0) as [n|] eqn:E; [|discriminate].
    change ((a :: d) ++ [c]) with (a :: (d ++ [c])).
    rewrite (put_cons wr0 es0 a (d ++ [c]) x (snoc_not_nil d c)), E; simpl.
    rewrite assoc_set_entry_same; now apply IH.
Qed.

Lemma resolve_del_parent (w : node) (d : path) (c : string)
    (wr : bool) (es : list (string * node)) :
  resolve w d = Ret (Dir wr es) ->
  resolve (del w (joinpath d c)) d = Ret (Dir wr (del_entry c es)).
Proof.
  unfold joinpath; revert w; induction d as [|a d IH]; intros w H; simpl in H.
  - injection H as ->; reflexivity.
  - destruct w as [|wr0 es0]; [discriminate|].
    destruct (assoc a es0) as [n|] eqn:E; [|discriminate].
    change ((a :: d) ++ [c]) with (a :: (d ++ [c])).
    rewrite (del_cons wr0 es0 a (d ++ [c]) (snoc_not_nil d c)), E; simpl.
    rewrite assoc_set_entry_same; now apply IH.
Qed.

(** After [put], the path holds the new node. *)
Lemma resolve_put_same (w : node) (d : path) (c : string) (x : node)
    (wr : bool) (es : list (string * node)) :
  resolve w d = Ret (Dir wr es) ->
  resolve (put w (joinpath d c) x) (joinpath d c) = Ret x.
Proof.
  intros H.
  rewrite (resolve_child _ d c _ _ (resolve_put_parent w d c x wr es H)).
  now rewrite assoc_set_entry_same.
Qed.

(** [put] does not touch what lies under a sibling name. *)
Lemma resolve_put_sibling (w : node) (d : path) (c c' : string) (q : path)
    (x : node) (wr : bool) (es : list (string * node)) :
  resolve w d = Ret (Dir wr es) -> c <> c' ->
  resolve (put w (joinpath d c) x) (d ++ c' :: q) = resolve w (d ++ c' :: q).
Proof.
  intros H Hne.
  rewrite !resolve_app, H, (resolve_put_parent w d c x wr es H); simpl.
  now rewrite assoc_set_entry_other.
Qed.

(** After [del], the path is gone. *)
Lemma resolve_del_same (w : node) (d : path) (c : string)
    (wr : bool) (es : list (string * node)) :
  resolve w d = Ret (Dir wr es) ->
  resolve (del w (joinpath d c)) (joinpath d c) = Raise FileNotFoundError.
Proof.
  intros H.
  rewrite (resolve_child _ d c _ _ (resolve_del_parent w d c wr es H)).
  now rewrite assoc_del_entry_same.
Qed.

Lemma resolve_del_sibling (w : node) (d : path) (c c' : string) (q : path)
    (wr : bool) (es : list (string * node)) :
  resolve w d = Ret (Dir wr es) -> c <> c' ->
  resolve (del w (joinpath d c)) (d ++ c' :: q) = resolve w (d ++ c' :: q).
Proof.
  intros H Hne.
  rewrite !resolve_app, H, (resolve_del_parent w d c wr es H); simpl.
  now rewrite assoc_del_entry_other.
Qed.

(** Every path [listdir] gives resolves. *)
Lemma listdir_resolves (w : node) (d : path) (l : list path) (p : path) :
  listdir w d = Ret l -> In p l -> exists n, resolve w p = Ret n.
Proof.
  unfold listdir; destruct (resolve w d) as [[|wr es]|] eqn:E; try discriminate.
  intros [= <-] Hin; apply in_map_iff in Hin as [[c n] [<- Hin]]; simpl.
  rewrite (resolve_child w d c wr es E).
  destruct (assoc_In c n es Hin) as [n' ->]; eauto.
Qed.

Lemma glob_ext_resolves (w : node) (d : path) (ext : string) (p : path) :
  In p (glob_ext w d ext) -> exists n, resolve w p = Ret n.
Proof.
  unfold glob_ext; destruct (listdir w d) as [l|] eqn:E; [|contradiction].
  intros Hin; apply filter_In in Hin as [Hin _].
  eapply listdir_resolves; eauto.
Qed.

End FSFacts.

(** ** Computations *)

Module RunFacts.

Import FS Notions.

Lemma bind_ret_l {A B : Type} (m : M A) (f : A -> M B) (w : node) (a : A) :
  res (m w) = Ret a ->
  bind m f w =
  Run (res (f a (fs_after (m w)))) (fs_after (f a (fs_after (m w))))
      (logged (m w) ++ logged (f a (fs_after (m w)))).
Proof. intros H; unfold bind; now rewrite H. Qed.

Lemma bind_raise {A B : Type} (m : M A) (f : A -> M B) (w : node) (e : exn) :
  res (m w) = Raise e ->
  bind m f w = Run (Raise e) (fs_after (m w)) (logged (m w)).
Proof. intros H; unfold bind; now rewrite H. Qed.

Lemma emits_ret {A : Type} (P : log_record -> Prop) (a : A) : emits P (ret a).
Proof. intros w; constructor. Qed.

Lemma emits_raise {A : Type} (P : log_record -> Prop) (e : exn) :
  emits P (@raise A e).
Proof. intros w; constructor. Qed.

Lemma emits_lift {A : Type} (P : log_record -> Prop) (o : outcome A) :
  emits P (lift o).
Proof. intros w; constructor. Qed.

Lemma emits_peek {A : Type} (P : log_record -> Prop) (f : node -> outcome A) :
  emits P (peek f).
Proof. intros w; constructor. Qed.

Lemma emits_act {A : Type} (P : log_record -> Prop)
    (f : node -> outcome A * node) :
  emits P (act f).
Proof. intros w; constructor. Qed.

Lemma emits_log (P : log_record -> Prop) (l : log_record) :
  P l -> emits P (log l).
Proof. intros H w; simpl; auto. Qed.

Lemma emits_bind {A B : Type} (P : log_record -> Prop) (m : M A) (f : A -> M B) :
  emits P m -> (forall a, emits P (f a)) -> emits P (bind m f).
Proof.
  intros Hm Hf w; unfold bind.
  destruct (res (m w)); simpl; [|apply Hm].
  apply Forall_app; split; [apply Hm | apply Hf].
Qed.

Lemma emits_try_catch {A : Type} (P : log_record -> Prop) (m : M A)
    (handler : exn -> option (M A)) :
  emits P m -> (forall e h, handler e = Some h -> emits P h) ->
  emits P (try_catch m handler).
Proof.
  intros Hm Hh w; unfold try_catch.
  destruct (res (m w)) as [a|e]; [apply Hm|].
  destruct (handler e) as [h|] eqn:E; simpl; [|apply Hm].
  apply Forall_app; split; [apply Hm | eapply Hh; eauto].
Qed.

Lemma emits_try_except {A : Type} (P : log_record -> Prop) (m : M A)
    (handler : exn -> M A) :
  emits P m -> (forall e, emits P (handler e)) ->
  emits P (try_except m handler).
Proof.
  intros Hm Hh; apply emits_try_catch; [assumption|].
  intros e h [= <-]; apply Hh.
Qed.

Lemma pure_fs_ret {A : Type} (a : A) : pure_fs (ret a).
Proof. intros w; reflexivity. Qed.

Lemma pure_fs_lift {A : Type} (o : outcome A) : pure_fs (lift o).
Proof. intros w; reflexivity. Qed.

Lemma pure_fs_peek {A : Type} (f : node -> outcome A) : pure_fs (peek f).
Proof. intros w; reflexivity. Qed.

Lemma pure_fs_log (l : log_record) : pure_fs (log l).
Proof. intros w; reflexivity. Qed.

Lemma pure_fs_bind {A B : Type} (m : M A) (f : A -> M B) :
  pure_fs m -> (forall a, pure_fs (f a)) -> pure_fs (bind m f).
Proof.
  intros Hm Hf w; unfold bind.
  destruct (res (m w)); simpl; [|apply Hm].
  now rewrite Hf, Hm.
Qed.

End RunFacts.

Create HintDb emits.
Create HintDb pure_fs.

#[export] Hint Resolve RunFacts.emits_ret RunFacts.emits_raise
  RunFacts.emits_lift RunFacts.emits_peek RunFacts.emits_act
  RunFacts.emits_log RunFacts.emits_bind RunFacts.emits_try_except
  : emits.

#[export] Hint Resolve RunFacts.pure_fs_ret RunFacts.pure_fs_lift
  RunFacts.pure_fs_peek RunFacts.pure_fs_log RunFacts.pure_fs_bind
  : pure_fs.

(** * The folder pairer *)

Module Pairer.

Import PyStr PyStrFacts PurePath PurePathFacts FS FSFacts Notions RunFacts.
Import VideoConverter.

Lemma classify_pure (files : list path) (v a : option path) :
  pure_fs (classify files v a).
Proof.
  revert v a; induction files as [|f files IH]; intros v a; simpl.
  - auto with pure_fs.
  - destruct (endswith (stem f) "080"); [|destruct (endswith (stem f) "280")];
      repeat (apply pure_fs_bind; [auto with pure_fs | intros ?]); apply IH.
Qed.

(** Pairing only looks at the folder. *)
Lemma find_m4s_files_pure (self : t) (folder : path) :
  pure_fs (find_m4s_files self folder).
Proof.
  unfold find_m4s_files.
  apply pure_fs_bind; [auto with pure_fs | intros files].
  destruct (negb (List.length files =? 2)%nat); [auto with pure_fs|].
  apply pure_fs_bind; [apply classify_pure | intros [[v|] [a|]]];
    auto with pure_fs.
Qed.

(** One step of the loop on a file that resolves. *)
Lemma classify_cons (f : path) (files : list path) (v a : option path)
    (w : node) (n : node) :
  resolve w f = Ret n ->
  res (classify (f :: files) v a w) =
  res (classify files
         (if is_video f then Some f else v)
         (if is_video f then a else if is_audio f then Some f else a) w).
Proof.
  intros Hf; unfold is_video, is_audio; simpl.
  destruct (endswith (stem f) "080"); [|destruct (endswith (stem f) "280")];
    unfold bind, peek, log, stat; simpl; rewrite ?Hf; simpl;
    pose proof (classify_pure files) as Hp; unfold pure_fs in Hp;
    destruct (res (classify files _ _ w)); reflexivity.
Qed.


(** The whole loop on a folder's two fragment files. *)
Lemma classify_two (x y : path) (w : node) (nx ny : node) :
  resolve w x = Ret nx -> resolve w y = Ret ny ->
  res (classify [x; y] None None w) =
  Ret (if is_video y then Some y else if is_video x then Some x else None,
       if is_video y then (if is_video x then None
                           else if is_audio x then Some x else None)
       else if is_audio y then Some y
       else if is_video x then None
       else if is_audio x then Some x else None).
Proof.
  intros Hx Hy.
  rewrite (classify_cons x [y] None None w nx Hx).
  rewrite (classify_cons y [] _ _ w ny Hy); simpl.
  destruct (is_video x), (is_video y), (is_audio x), (is_audio y); reflexivity.
Qed.

Lemma find_m4s_files_two (self : t) (folder x y : path) (w : node) :
  glob_ext w folder ".m4s" = [x; y] ->
  res (find_m4s_files self folder w) =
  match res (classify [x; y] None None w) with
  | Ret (Some v, Some a) => Ret (Some v, Some a)
  | Ret _ => Ret (None, None)
  | Raise e => Raise e
  end.
Proof.
  intros Hg; unfold find_m4s_files.
  rewrite (bind_ret_l _ _ w [x; y]) by (unfold peek; simpl; now rewrite Hg).
  cbn [res fs_after logged peek List.length Nat.eqb negb].
  remember (classify [x; y] None None) as cl eqn:Ecl.
  unfold bind.
  destruct (res (cl w)) as [[[v|] [a|]]|e]; reflexivity.
Qed.

Lemma is_video_not_audio (p : path) : is_video p = true -> is_audio p = false.
Proof. apply endswith_080_not_280. Qed.

(** C1.  A folder whose [*.m4s] files are exactly one file with a stem
    ending in 080 and one with a stem ending in 280 is paired, the 080 file
    as video and the 280 file as audio, in whichever order the directory
    lists the two; the folder is left as it was. *)
Theorem find_m4s_files_pairs (self : t) (folder v a : path) (w : node) :
  Permutation (glob_ext w folder ".m4s") [v; a] ->
  is_video v = true -> is_audio a = true ->
  res (find_m4s_files self folder w) = Ret (Some v, Some a) /\
  fs_after (find_m4s_files self folder w) = w.
Proof.
  intros Hperm Hv Ha; split; [|apply find_m4s_files_pure].
  pose proof (is_video_not_audio v Hv) as Hva.
  assert (Hav : is_video a = false).
  { destruct (is_video a) eqn:E; [|reflexivity].
    apply is_video_not_audio in E; congruence. }
  assert (Hin : forall p, In p [v; a] -> exists n, resolve w p = Ret n).
  { intros p Hp; apply (glob_ext_resolves w folder ".m4s").
    eapply Permutation_in; [apply Permutation_sym; exact Hperm | exact Hp]. }
  destruct (Hin v (or_introl eq_refl)) as [nv Hnv].
  destruct (Hin a (or_intror (or_introl eq_refl))) as [na Hna].
  apply Permutation_sym, Permutation_length_2_inv in Hperm as [Hg|Hg].
  - rewrite (find_m4s_files_two self folder v a w Hg).
    rewrite (classify_two v a w nv na Hnv Hna), Hv, Ha, Hav; reflexivity.
  - rewrite (find_m4s_files_two self folder a v w Hg).
    rewrite (classify_two a v w na nv Hna Hnv), Hv, Ha, Hav; reflexivity.
Qed.

(** The theorem at a folder that lists the audio fragment first. *)
Lemma find_m4s_files_pairs_witness :
  let w := Samples.root_of [("A", Samples.good_folder_swapped)] in
  res (find_m4s_files Samples.self ["A"] w)
  = Ret (Some ["A"; "v080.m4s"], Some ["A"; "a280.m4s"]) /\
  fs_after (find_m4s_files Samples.self ["A"] w) = w.
Proof.
  intros w; apply find_m4s_files_pairs.
  - vm_compute; apply perm_swap.
  - vm_compute; reflexivity.
  - vm_compute; reflexivity.
Defined.

(** C2.  Pairing gives [(None, None)] whenever the number of [*.m4s] files
    is not 2, and whenever it is 2 but the two files are not one with a
    stem ending in 080 and one with a stem ending in 280: two files of the
    same role fail, the first one is not picked. *)
Theorem find_m4s_files_fails (self : t) (folder : path) (w : node) :
  List.length (glob_ext w folder ".m4s") <> 2 \/
  (exists x y, glob_ext w folder ".m4s" = [x; y] /\ one_of_each x y = false) ->
  res (find_m4s_files self folder w) = Ret (None, None) /\
  fs_after (find_m4s_files self folder w) = w.
Proof.
  intros H; split; [|apply find_m4s_files_pure].
  destruct H as [Hlen | (x & y & Hg & Hone)].
  - unfold find_m4s_files, bind at 1, peek; simpl.
    apply Nat.eqb_neq in Hlen; rewrite Hlen; reflexivity.
  - assert (Hin : forall p, In p [x; y] -> exists n, resolve w p = Ret n).
    { intros p Hp; apply (glob_ext_resolves w folder ".m4s"); now rewrite Hg. }
    destruct (Hin x (or_introl eq_refl)) as [nx Hnx].
    destruct (Hin y (or_intror (or_introl eq_refl))) as [ny Hny].
    rewrite (find_m4s_files_two self folder x y w Hg).
    rewrite (classify_two x y w nx ny Hnx Hny).
    unfold one_of_each in Hone.
    destruct (is_video x) eqn:Vx, (is_video y) eqn:Vy,
             (is_audio x) eqn:Ax, (is_audio y) eqn:Ay;
      try reflexivity; try discriminate;
      try (apply is_video_not_audio in Vx; congruence);
      try (apply is_video_not_audio in Vy; congruence).
Qed.

(** The theorem at a folder with two video fragments: neither is picked. *)
Lemma find_m4s_files_fails_witness :
  let w := Samples.root_of [("A", Samples.two_videos_folder)] in
  res (find_m4s_files Samples.self ["A"] w) = Ret (None, None) /\
  fs_after (find_m4s_files Samples.self ["A"] w) = w.
Proof.
  intros w; apply find_m4s_files_fails.
  right; exists ["A"; "x080.m4s"], ["A"; "y080.m4s"].
  split; vm_compute; reflexivity.
Defined.

End Pairer.

(** * The header stripper *)

Module Stripper.

Import PyStr PyStrFacts PurePath PurePathFacts FS FSFacts Notions RunFacts.
Import VideoConverter.

(** [remove_encryption_header], run: what it returns, leaves and logs in
    each of its three cases. *)
Lemma remove_encryption_header_run (self : t) (p temp : path) (w : node) :
  with_suffix p ".temp" = Ret temp ->
  remove_encryption_header self p w =
  match read_bytes w p with
  | Ret data =>
      match open_wb w temp with
      | Ret _ =>
          Run (Ret (Some temp)) (put w temp (File (skipn HEADER_LEN data)))
              [HeaderRemoved (name p)]
      | Raise e => Run (Ret None) w [StripError p e]
      end
  | Raise e => Run (Ret None) w [StripError p e]
  end.
Proof.
  intros Ht; unfold remove_encryption_header.
  rewrite (bind_ret_l _ _ w temp) by (now rewrite <- Ht).
  cbn [lift res fs_after logged app].
  set (reading := bind (peek (fun w => read_bytes w p))
                       (fun data => ret (skipn HEADER_LEN data))).
  assert (Hr : reading w
               = match read_bytes w p with
                 | Ret data => Run (Ret (skipn HEADER_LEN data)) w []
                 | Raise e => Run (Raise e) w []
                 end).
  { unfold reading, bind, peek, ret; cbn [res fs_after logged app].
    now destruct (read_bytes w p). }
  unfold try_except, try_catch.
  destruct (read_bytes w p) as [data|e].
  - rewrite (bind_ret_l reading _ w (skipn HEADER_LEN data))
      by (now rewrite Hr).
    rewrite Hr; cbn [res fs_after logged app].
    set (writing := act (fun w => write_bytes w temp (skipn HEADER_LEN data))).
    assert (Hw : writing w
                 = match open_wb w temp with
                   | Ret _ => Run (Ret tt)
                                (put w temp (File (skipn HEADER_LEN data))) []
                   | Raise e => Run (Raise e) w []
                   end).
    { unfold writing, act, write_bytes; now destruct (open_wb w temp). }
    destruct (open_wb w temp) as [[]|e].
    + rewrite (bind_ret_l writing _ w tt) by (now rewrite Hw).
      rewrite Hw; unfold bind, log, ret; reflexivity.
    + rewrite (bind_raise writing _ w e) by (now rewrite Hw).
      rewrite Hw; unfold bind, log, ret; reflexivity.
  - rewrite (bind_raise reading _ w e) by (now rewrite Hr).
    rewrite Hr; unfold bind, log, ret; reflexivity.
Qed.

(** The header stripper never raises on a path that has a name. *)
Lemma remove_encryption_header_returns (self : t) (p : path) (w : node) :
  name p <> "" -> raised (res (remove_encryption_header self p w)) = false.
Proof.
  intros Hn.
  rewrite (remove_encryption_header_run self p _ w
             (with_suffix_stem p ".temp" eq_refl Hn)).
  destruct (read_bytes w p); [destruct (open_wb w _)|]; reflexivity.
Qed.

(** If the temporary file can be opened for writing, its directory is
    there. *)
Lemma open_wb_parent (w : node) (d : path) (c : string) :
  open_wb w (joinpath d c) = Ret tt ->
  exists wr es, resolve w d = Ret (Dir wr es).
Proof.
  unfold open_wb; rewrite parent_joinpath.
  destruct (resolve w (joinpath d c)) as [[data|wr es]|e] eqn:E;
    try discriminate.
  - apply resolve_parent_dir in E as (wr & es & H & _); eauto.
  - destruct (resolve w d) as [[|[] es]|]; destruct e; try discriminate; eauto.
Qed.

(** After a successful strip the temporary file holds the input without
    its first 9 bytes. *)
Lemma remove_encryption_header_content (self : t) (p temp : path) (w : node)
    (data : list byte) :
  resolve w p = Ret (File data) ->
  with_suffix p ".temp" = Ret temp ->
  open_wb w temp = Ret tt ->
  res (remove_encryption_header self p w) = Ret (Some temp) /\
  resolve (fs_after (remove_encryption_header self p w)) temp
  = Ret (File (skipn HEADER_LEN data)).
Proof.
  intros Hp Ht Ho.
  rewrite (remove_encryption_header_run self p temp w Ht).
  unfold read_bytes; rewrite Hp, Ho; simpl; split; [reflexivity|].
  destruct (with_suffix_ret _ _ _ Ht) as [Hv Hn].
  rewrite (with_suffix_stem p ".temp" Hv Hn) in Ht; injection Ht as <-.
  destruct (open_wb_parent w _ _ Ho) as (wr & es & Hd).
  eapply resolve_put_same; eauto.
Qed.

(** C3.  Stripping a file of 9+N bytes writes exactly the last N bytes of
    the input to the temporary file (the input's name with the suffix
    [.temp]) and returns that file's path, provided the temporary file can
    be opened for writing. *)
Theorem remove_encryption_header_keeps_tail (self : t) (p temp : path)
    (w : node) (data : list byte) (N : nat) :
  resolve w p = Ret (File data) ->
  List.length data = 9 + N ->
  with_suffix p ".temp" = Ret temp ->
  open_wb w temp = Ret tt ->
  res (remove_encryption_header self p w) = Ret (Some temp) /\
  resolve (fs_after (remove_encryption_header self p w)) temp
  = Ret (File (last_bytes N data)) /\
  List.length (last_bytes N data) = N.
Proof.
  intros Hp Hlen Ht Ho.
  destruct (remove_encryption_header_content self p temp w data Hp Ht Ho)
    as [Hr Hc].
  unfold last_bytes; rewrite Hlen.
  replace (9 + N - N) with HEADER_LEN by (unfold HEADER_LEN; lia).
  repeat split; try assumption.
  rewrite length_skipn, Hlen; unfold HEADER_LEN; lia.
Qed.

(** The theorem at a fragment of 9+3 bytes. *)
Lemma remove_encryption_header_keeps_tail_witness :
  let w := Samples.root_of [("A", Samples.good_folder)] in
  let r := remove_encryption_header Samples.self ["A"; "v080.m4s"] w in
  res r = Ret (Some ["A"; "v080.temp"]) /\
  resolve (fs_after r) ["A"; "v080.temp"]
  = Ret (File (last_bytes 3 (Samples.header ++ Samples.video_payload))) /\
  List.length (last_bytes 3 (Samples.header ++ Samples.video_payload)) = 3.
Proof.
  intros w r.
  apply (remove_encryption_header_keeps_tail Samples.self
           ["A"; "v080.m4s"] ["A"; "v080.temp"] w
           (Samples.header ++ Samples.video_payload) 3);
    vm_compute; reflexivity.
Defined.

(** C4.  Stripping a file shorter than 9 bytes never raises; when the
    temporary file can be opened for writing, the strip succeeds and the
    temporary file is empty. *)
Theorem remove_encryption_header_short (self : t) (p temp : path)
    (w : node) (data : list byte) :
  resolve w p = Ret (File data) ->
  List.length data < 9 ->
  with_suffix p ".temp" = Ret temp ->
  raised (res (remove_encryption_header self p w)) = false /\
  (open_wb w temp = Ret tt ->
   res (remove_encryption_header self p w) = Ret (Some temp) /\
   resolve (fs_after (remove_encryption_header self p w)) temp
   = Ret (File [])).
Proof.
  intros Hp Hlen Ht; split.
  - apply remove_encryption_header_returns.
    now destruct (with_suffix_ret _ _ _ Ht).
  - intros Ho.
    destruct (remove_encryption_header_content self p temp w data Hp Ht Ho)
      as [Hr Hc].
    split; [assumption|].
    rewrite Hc, skipn_all2; [reflexivity | unfold HEADER_LEN; lia].
Qed.

(** The theorem at a fragment of 3 bytes. *)
Lemma remove_encryption_header_short_witness :
  let w := Samples.root_of [("A", Samples.short_folder)] in
  let r := remove_encryption_header Samples.self ["A"; "v080.m4s"] w in
  raised (res r) = false /\
  res r = Ret (Some ["A"; "v080.temp"]) /\
  resolve (fs_after r) ["A"; "v080.temp"] = Ret (File []).
Proof.
  intros w r.
  destruct (remove_encryption_header_short Samples.self
              ["A"; "v080.m4s"] ["A"; "v080.temp"] w [x00; x01; x02])
    as [H1 H2]; try (vm_compute; reflexivity).
  - vm_compute; lia.
  - split; [exact H1 | apply H2; vm_compute; reflexivity].
Defined.

End Stripper.

(** * The folder converter *)

Module Converter.

Import PyStr PyStrFacts PurePath PurePathFacts FS FSFacts Notions RunFacts.
Import VideoConverter Pairer Stripper.

Lemma res_bind {A B : Type} (m : M A) (f : A -> M B) (w : node) :
  res (bind m f w) =
  match res (m w) with
  | Ret a => res (f a (fs_after (m w)))
  | Raise e => Raise e
  end.
Proof. unfold bind; now destruct (res (m w)). Qed.

Lemma fs_after_bind {A B : Type} (m : M A) (f : A -> M B) (w : node) :
  fs_after (bind m f w) =
  match res (m w) with
  | Ret a => fs_after (f a (fs_after (m w)))
  | Raise e => fs_after (m w)
  end.
Proof. unfold bind; now destruct (res (m w)). Qed.

(** A strip that gives a result had a temporary name to work with. *)
Lemma strip_named (self : t) (p : path) (w : node) (x : option path) :
  res (remove_encryption_header self p w) = Ret x ->
  exists temp, with_suffix p ".temp" = Ret temp.
Proof.
  destruct (with_suffix p ".temp") as [temp|e] eqn:E; [eauto|].
  unfold remove_encryption_header; rewrite E, res_bind; discriminate.
Qed.

(** A successful strip: the temporary file is a sibling of the input, named
    by its stem, and is a regular file afterwards. *)
Lemma strip_some (self : t) (p temp : path) (w : node) :
  res (remove_encryption_header self p w) = Ret (Some temp) ->
  temp = joinpath (parent p) (stem p ++ ".temp")%string /\
  exists data wr es,
    read_bytes w p = Ret data /\
    resolve w (parent p) = Ret (Dir wr es) /\
    fs_after (remove_encryption_header self p w)
    = put w temp (File (skipn HEADER_LEN data)) /\
    resolve (fs_after (remove_encryption_header self p w)) temp
    = Ret (File (skipn HEADER_LEN data)).
Proof.
  intros H; destruct (strip_named self p w _ H) as [temp' Ht].
  rewrite (remove_encryption_header_run self p temp' w Ht) in *.
  destruct (with_suffix_ret _ _ _ Ht) as [Hv Hn].
  rewrite (with_suffix_stem p ".temp" Hv Hn) in Ht; injection Ht as <-.
  destruct (read_bytes w p) as [data|e]; [|discriminate].
  destruct (open_wb w _) as [[]|e] eqn:Ho; [|discriminate].
  simpl in *; injection H as <-; split; [reflexivity|].
  destruct (open_wb_parent w _ _ Ho) as (wr & es & Hd).
  exists data, wr, es; repeat split; try assumption.
  eapply resolve_put_same; eauto.
Qed.

(** A failed strip leaves the file system as it was. *)
Lemma strip_none (self : t) (p : path) (w : node) :
  res (remove_encryption_header self p w) = Ret None ->
  fs_after (remove_encryption_header self p w) = w.
Proof.
  intros H; destruct (strip_named self p w _ H) as [temp Ht].
  rewrite (remove_encryption_header_run self p temp w Ht) in *.
  destruct (read_bytes w p); [destruct (open_wb w temp)|];
    try reflexivity; discriminate.
Qed.

(** Unlinking a regular file needs only a writable directory. *)
Lemma unlink_file (w : node) (d : path) (c : string) (data : list byte) :
  resolve w (joinpath d c) = Ret (File data) ->
  unlink w (joinpath d c) =
  if dir_writable w d then (Ret tt, del w (joinpath d c))
  else (Raise PermissionError, w).
Proof.
  intros H; unfold unlink; rewrite H.
  destruct (joinpath d c) as [|x l] eqn:E; [now destruct d|].
  rewrite <- E, parent_joinpath; now destruct (dir_writable w d).
Qed.

Section Folder.

Variable ffmpeg : path -> path -> path -> node -> outcome unit * node.
Variable self : t.

(** The run of [convert_single_folder] on the path where the video strip
    succeeds and the audio strip fails: what remains is the unguarded
    [video_temp.unlink()]. *)
Lemma convert_single_folder_audio_failed (folder v a vt : path) (w : node) :
  res (find_m4s_files self folder w) = Ret (Some v, Some a) ->
  res (remove_encryption_header self v w) = Ret (Some vt) ->
  res (remove_encryption_header self a
         (fs_after (remove_encryption_header self v w))) = Ret None ->
  let w1 := fs_after (remove_encryption_header self v w) in
  res (convert_single_folder ffmpeg self folder w)
  = match fst (unlink w1 vt) with Ret _ => Ret false | Raise e => Raise e end
  /\ fs_after (convert_single_folder ffmpeg self folder w) = snd (unlink w1 vt).
Proof.
  intros Hf Hv Ha w1.
  pose proof (find_m4s_files_pure self folder w) as Hpure.
  pose proof (strip_none self a w1 Ha) as Hw2.
  unfold convert_single_folder.
  rewrite res_bind, fs_after_bind; cbn [log res fs_after].
  rewrite res_bind, fs_after_bind, Hf, Hpure.
  rewrite res_bind, fs_after_bind, Hv.
  rewrite res_bind, fs_after_bind, Ha.
  rewrite res_bind, fs_after_bind; fold w1; rewrite Hw2.
  unfold act; cbn [res fs_after ret].
  destruct (fst (unlink w1 vt)); split; reflexivity.
Qed.

(** On that path the folder is reported as failed whenever its directory
    allows the unlink, and whenever it is reported as failed the video
    temporary file is gone. *)
Lemma audio_failed_cleanup (folder v a vt : path) (w : node) :
  res (find_m4s_files self folder w) = Ret (Some v, Some a) ->
  res (remove_encryption_header self v w) = Ret (Some vt) ->
  res (remove_encryption_header self a
         (fs_after (remove_encryption_header self v w))) = Ret None ->
  (dir_writable (fs_after (remove_encryption_header self v w)) (parent vt)
   = true ->
   res (convert_single_folder ffmpeg self folder w) = Ret false) /\
  (res (convert_single_folder ffmpeg self folder w) = Ret false ->
   exists_ (fs_after (convert_single_folder ffmpeg self folder w)) vt = false).
Proof.
  intros Hf Hv Ha.
  destruct (convert_single_folder_audio_failed folder v a vt w Hf Hv Ha)
    as [Hres Hfs].
  destruct (strip_some self v vt w Hv) as (Hvt & data & wr & es & _ & _ & _ & Hr).
  rewrite Hres, Hfs; clear Hres Hfs.
  set (w1 := fs_after (remove_encryption_header self v w)) in *.
  rewrite Hvt in *; rewrite parent_joinpath.
  rewrite (unlink_file w1 _ _ _ Hr).
  destruct (resolve_parent_dir w1 _ _ _ Hr) as (wr1 & es1 & Hd & _).
  destruct (dir_writable w1 (parent v)) eqn:Ew; simpl; split;
    try (intros; reflexivity); try discriminate.
  intros _; unfold exists_.
  now rewrite (resolve_del_same w1 _ _ wr1 es1 Hd).
Qed.


(** The run of [convert_single_folder] on the path where the video strip
    fails: nothing was written. *)
Lemma convert_single_folder_video_failed (folder v a : path) (w : node) :
  res (find_m4s_files self folder w) = Ret (Some v, Some a) ->
  res (remove_encryption_header self v w) = Ret None ->
  res (convert_single_folder ffmpeg self folder w) = Ret false /\
  fs_after (convert_single_folder ffmpeg self folder w) = w.
Proof.
  intros Hf Hv.
  pose proof (find_m4s_files_pure self folder w) as Hpure.
  pose proof (strip_none self v w Hv) as Hw1.
  unfold convert_single_folder.
  rewrite res_bind, fs_after_bind; cbn [log res fs_after].
  rewrite res_bind, fs_after_bind, Hf, Hpure.
  rewrite res_bind, fs_after_bind, Hv, Hw1.
  split; reflexivity.
Qed.

(** The run of [convert_single_folder] on the path where both strips
    succeed and the rename step raises: the handler logs and returns
    [False], and nothing else is done. *)
Lemma convert_single_folder_rename_failed
    (folder v a vt at_ vmp4 amp4 : path) (w : node) (e : exn) :
  res (find_m4s_files self folder w) = Ret (Some v, Some a) ->
  res (remove_encryption_header self v w) = Ret (Some vt) ->
  res (remove_encryption_header self a
         (fs_after (remove_encryption_header self v w))) = Ret (Some at_) ->
  with_suffix vt ".mp4" = Ret vmp4 ->
  with_suffix at_ ".mp4" = Ret amp4 ->
  let w2 := fs_after (remove_encryption_header self a
                        (fs_after (remove_encryption_header self v w))) in
  res (promote vt vmp4 at_ amp4 w2) = Raise e ->
  res (convert_single_folder ffmpeg self folder w) = Ret false /\
  fs_after (convert_single_folder ffmpeg self folder w)
  = fs_after (promote vt vmp4 at_ amp4 w2).
Proof.
  intros Hf Hv Ha Hvm Ham w2 Hp.
  pose proof (find_m4s_files_pure self folder w) as Hpure.
  unfold convert_single_folder.
  rewrite res_bind, fs_after_bind; cbn [log res fs_after].
  rewrite res_bind, fs_after_bind, Hf, Hpure.
  rewrite res_bind, fs_after_bind, Hv.
  rewrite res_bind, fs_after_bind, Ha; fold w2.
  rewrite Hvm, Ham.
  rewrite res_bind, fs_after_bind; cbn [lift res fs_after].
  rewrite res_bind, fs_after_bind; cbn [lift res fs_after].
  rewrite res_bind, fs_after_bind.
  fold (promote vt vmp4 at_ amp4).
  unfold try_except, try_catch; rewrite Hp.
  cbn [res fs_after]; rewrite res_bind, fs_after_bind.
  cbn [log res fs_after ret]; split; reflexivity.
Qed.

End Folder.

End Converter.

(** ** The rename step *)

Module Promotion.
Import PyStr PyStrFacts PurePath PurePathFacts FS FSFacts Notions RunFacts.
Import VideoConverter Pairer Stripper Converter.

Lemma joinpath_inj (d : path) (c c' : string) :
  joinpath d c = joinpath d c' -> c = c'.
Proof. unfold joinpath; intros H; now apply app_inj_tail in H as [_ ->]. Qed.

Lemma path_eqb_joinpath (d : path) (c c' : string) :
  c <> c' -> path_eqb (joinpath d c) (joinpath d c') = false.
Proof.
  intros Hne; unfold path_eqb.
  destruct (list_eq_dec string_dec _ _) as [E|]; [|reflexivity].
  apply joinpath_inj in E; contradiction.
Qed.

(** What [glob] gives are children of the folder with the extension. *)
Lemma glob_ext_child (w : node) (d : path) (ext : string) (p : path) :
  In p (glob_ext w d ext) ->
  exists c, p = joinpath d c /\ endswith c ext = true.
Proof.
  unfold glob_ext, listdir.
  destruct (resolve w d) as [[|wr es]|]; try contradiction.
  intros H; apply filter_In in H as [H He].
  apply in_map_iff in H as [[c n] [<- _]]; simpl in *.
  rewrite name_joinpath in He; eauto.
Qed.

(** A successful pairing: both files are children of the folder, the first
    a video fragment, the second an audio fragment. *)
Lemma find_m4s_files_some (self : t) (folder v a : path) (w : node) :
  res (find_m4s_files self folder w) = Ret (Some v, Some a) ->
  In v (glob_ext w folder ".m4s") /\ In a (glob_ext w folder ".m4s") /\
  is_video v = true /\ is_audio a = true.
Proof.
  intros H.
  destruct (glob_ext w folder ".m4s") as [|x [|y [|z l]]] eqn:Hg;
    try (unfold find_m4s_files in H; rewrite res_bind in H;
         unfold peek in H; cbn [res fs_after] in H; rewrite Hg in H;
         discriminate H).
  assert (Hin : forall p, In p [x; y] -> exists n, resolve w p = Ret n).
  { intros p Hp; apply (glob_ext_resolves w folder ".m4s"); now rewrite Hg. }
  destruct (Hin x (or_introl eq_refl)) as [nx Hnx].
  destruct (Hin y (or_intror (or_introl eq_refl))) as [ny Hny].
  rewrite (find_m4s_files_two self folder x y w Hg) in H.
  rewrite (classify_two x y w nx ny Hnx Hny) in H.
  destruct (is_video x) eqn:Vx, (is_video y) eqn:Vy,
           (is_audio x) eqn:Ax, (is_audio y) eqn:Ay;
    try discriminate; injection H as <- <-; simpl; auto 10.
Qed.

Lemma append_temp_not_mp4 (s s' : string) :
  (s ++ ".temp")%string <> (s' ++ ".mp4")%string.
Proof.
  intros H; apply (f_equal (fun x => rev (chars x))) in H.
  rewrite !chars_app, !rev_app_distr in H; discriminate.
Qed.

(** A failed rename leaves the file system as it was. *)
Lemma rename_raise (w : node) (src dst : path) (e : exn) :
  fst (rename w src dst) = Raise e -> snd (rename w src dst) = w.
Proof.
  unfold rename.
  destruct (resolve w src) as [n|]; [|reflexivity].
  destruct (resolve w (parent dst)) as [[|wd es]|]; try reflexivity.
  destruct src, dst; try reflexivity.
  destruct (path_eqb _ _); [discriminate|].
  destruct (negb _); [reflexivity|].
  destruct n as [data|wr es'].
  - destruct (resolve w (s0 :: dst)) as [[|]|]; try reflexivity; discriminate.
  - destruct (resolve w (s0 :: dst)) as [[|? [|]]|]; try reflexivity;
      destruct (is_prefix _ _); try reflexivity; discriminate.
Qed.

(** A successful rename of a regular file to a sibling name. *)
Lemma rename_file_ok (w : node) (d : path) (c c' : string) (data : list byte) :
  resolve w (joinpath d c) = Ret (File data) -> c <> c' ->
  fst (rename w (joinpath d c) (joinpath d c')) = Ret tt ->
  snd (rename w (joinpath d c) (joinpath d c'))
  = put (del w (joinpath d c)) (joinpath d c') (File data).
Proof.
  intros Hs Hne; unfold rename; rewrite Hs, parent_joinpath.
  destruct (resolve_parent_dir w _ _ _ Hs) as (wr & es & Hd & _); rewrite Hd.
  pose proof (path_eqb_joinpath d c c' Hne) as Hpe.
  destruct (joinpath d c) as [|x l] eqn:E1; [now destruct d|].
  destruct (joinpath d c') as [|x' l'] eqn:E2; [now destruct d|].
  rewrite Hpe.
  destruct (negb _); [discriminate|].
  destruct (resolve w (x' :: l')) as [[|]|]; try reflexivity; discriminate.
Qed.


Lemma append_temp_not_m4s (s s' : string) :
  (s ++ ".temp")%string <> (s' ++ ".m4s")%string.
Proof.
  intros H; apply (f_equal (fun x => rev (chars x))) in H.
  rewrite !chars_app, !rev_app_distr in H; discriminate.
Qed.

Lemma video_audio_stems (v a : path) :
  is_video v = true -> is_audio a = true -> stem v <> stem a.
Proof.
  unfold is_video, is_audio; intros Hv Ha E; rewrite E in Hv.
  apply endswith_080_not_280 in Hv; congruence.
Qed.

Lemma resolve_put_sibling' (w : node) (d : path) (c c' : string) (x : node)
    (wr : bool) (es : list (string * node)) :
  resolve w d = Ret (Dir wr es) -> c <> c' ->
  resolve (put w (joinpath d c) x) (joinpath d c') = resolve w (joinpath d c').
Proof. intros; unfold joinpath at 2 3; eapply resolve_put_sibling; eauto. Qed.

Lemma resolve_del_sibling' (w : node) (d : path) (c c' : string)
    (wr : bool) (es : list (string * node)) :
  resolve w d = Ret (Dir wr es) -> c <> c' ->
  resolve (del w (joinpath d c)) (joinpath d c') = resolve w (joinpath d c').
Proof. intros; unfold joinpath at 2 3; eapply resolve_del_sibling; eauto. Qed.

(** How the rename step raises: at the first rename, with nothing changed,
    or at the second, with the first one done. *)
Lemma promote_raise (vt vmp4 at_ amp4 : path) (w : node) (e : exn) :
  res (promote vt vmp4 at_ amp4 w) = Raise e ->
  (fst (rename w vt vmp4) = Raise e /\
   fs_after (promote vt vmp4 at_ amp4 w) = w) \/
  (fst (rename w vt vmp4) = Ret tt /\
   fst (rename (snd (rename w vt vmp4)) at_ amp4) = Raise e /\
   fs_after (promote vt vmp4 at_ amp4 w) = snd (rename w vt vmp4)).
Proof.
  unfold promote; rewrite res_bind, fs_after_bind.
  change (res (act (fun w => rename w vt vmp4) w))
    with (fst (rename w vt vmp4)).
  change (fs_after (act (fun w => rename w vt vmp4) w))
    with (snd (rename w vt vmp4)).
  destruct (fst (rename w vt vmp4)) as [[]|e1] eqn:R1.
  - set (w3 := snd (rename w vt vmp4)).
    rewrite res_bind, fs_after_bind.
    change (res (act (fun w => rename w at_ amp4) w3))
      with (fst (rename w3 at_ amp4)).
    change (fs_after (act (fun w => rename w at_ amp4) w3))
      with (snd (rename w3 at_ amp4)).
    destruct (fst (rename w3 at_ amp4)) as [[]|e2] eqn:R2; [discriminate|].
    intros [= <-]; right; repeat split; try assumption.
    now apply rename_raise in R2.
  - intros [= <-]; left; split; [reflexivity | now apply rename_raise in R1].
Qed.

Section Rename.

Variable ffmpeg : path -> path -> path -> node -> outcome unit * node.
Variable self : t.

(** After a rename step that raised, both stripped files are still in the
    folder: the audio one under its temporary name, the video one under its
    temporary name or, if the first rename went through, under its promoted
    name. *)
Lemma rename_failed_leaves_files
    (folder v a vt at_ vmp4 amp4 : path) (w : node) (e : exn) :
  res (find_m4s_files self folder w) = Ret (Some v, Some a) ->
  res (remove_encryption_header self v w) = Ret (Some vt) ->
  res (remove_encryption_header self a
         (fs_after (remove_encryption_header self v w))) = Ret (Some at_) ->
  with_suffix vt ".mp4" = Ret vmp4 ->
  with_suffix at_ ".mp4" = Ret amp4 ->
  let w2 := fs_after (remove_encryption_header self a
                        (fs_after (remove_encryption_header self v w))) in
  res (promote vt vmp4 at_ amp4 w2) = Raise e ->
  exists vdata adata,
    read_bytes w v = Ret vdata /\ read_bytes w a = Ret adata /\
    resolve (fs_after (promote vt vmp4 at_ amp4 w2)) at_
    = Ret (File (skipn HEADER_LEN adata)) /\
    (resolve (fs_after (promote vt vmp4 at_ amp4 w2)) vt
     = Ret (File (skipn HEADER_LEN vdata)) \/
     resolve (fs_after (promote vt vmp4 at_ amp4 w2)) vmp4
     = Ret (File (skipn HEADER_LEN vdata))).
Proof.
  intros Hf Hv Ha Hvm Ham w2 Hp.
  destruct (find_m4s_files_some self folder v a w Hf) as (Iv & Ia & Vv & Aa).
  destruct (glob_ext_child w folder ".m4s" v Iv) as (cv & Ev & Xv).
  destruct (glob_ext_child w folder ".m4s" a Ia) as (ca & Ea & Xa).
  pose proof (video_audio_stems v a Vv Aa) as Hstems.
  destruct (strip_some self v vt w Hv)
    as (Evt & vdata & wr & es & Rv & Dv & Fv & Sv).
  destruct (strip_some self a at_ _ Ha)
    as (Eat & adata & wr1 & es1 & Ra & Da & Fa & Sa).
  set (w1 := fs_after (remove_encryption_header self v w)) in *.
  fold w2 in Fa, Sa.
  assert (Pv : parent v = folder) by (rewrite Ev; apply parent_joinpath).
  assert (Pa : parent a = folder) by (rewrite Ea; apply parent_joinpath).
  rewrite Pv in *; rewrite Pa in *.
  set (nvt := (stem v ++ ".temp")%string) in *.
  set (nat_ := (stem a ++ ".temp")%string) in *.
  assert (Hn1 : nvt <> nat_).
  { intros E; apply append_inv_tail in E; contradiction. }
  (* the audio strip read the same bytes the folder held at the start *)
  assert (Ra' : read_bytes w a = Ret adata).
  { rewrite <- Ra; unfold read_bytes; rewrite Fv, Evt, Ea.
    rewrite (resolve_put_sibling' w folder nvt ca _ wr es Dv); [reflexivity|].
    apply endswith_spec in Xa as [pre ->]; apply append_temp_not_m4s. }
  (* the video temporary file survives the audio strip *)
  assert (Sv2 : resolve w2 vt = Ret (File (skipn HEADER_LEN vdata))).
  { rewrite <- Sv, Fa, Eat, Evt.
    apply (resolve_put_sibling' w1 folder nat_ nvt _ wr1 es1 Da); congruence. }
  destruct (with_suffix_ret _ _ _ Hvm) as [Hval Hnm].
  rewrite (with_suffix_stem vt ".mp4" Hval Hnm) in Hvm; injection Hvm as Evm.
  rewrite Evt in Evm at 1; rewrite parent_joinpath in Evm.
  set (nvm := (stem vt ++ ".mp4")%string) in *.
  exists vdata, adata; split; [assumption|]; split; [assumption|].
  destruct (promote_raise vt vmp4 at_ amp4 w2 e Hp)
    as [[R1 ->] | (R1 & R2 & ->)].
  - (* the first rename raised *)
    split; [assumption | now left].
  - (* the first rename went through, so the second one raised *)
    set (w3 := snd (rename w2 vt vmp4)) in *.
    assert (E3 : w3 = put (del w2 vt) vmp4 (File (skipn HEADER_LEN vdata))).
    { unfold w3; rewrite Evt, <- Evm in *.
      apply rename_file_ok; try assumption. apply append_temp_not_mp4. }
    destruct (resolve_parent_dir w2 folder nat_ _
                ltac:(rewrite <- Eat; exact Sa)) as (wr2 & es2 & D2 & _).
    pose proof (resolve_del_parent w2 folder nvt wr2 es2 D2) as D3.
    rewrite <- Evt in D3.
    rewrite E3, <- Evm; split.
    + rewrite Eat.
      rewrite (resolve_put_sibling' _ folder nvm nat_ _ _ _ D3)
        by (intros E; symmetry in E; revert E; apply append_temp_not_mp4).
      rewrite Evt, (resolve_del_sibling' w2 folder nvt nat_ wr2 es2 D2 Hn1).
      now rewrite <- Eat.
    + right; eapply resolve_put_same; eauto.
Qed.

End Rename.

End Promotion.

(** ** Where an exception can leave [convert_single_folder] *)

Module Escapes.

Import PyStr PyStrFacts PurePath PurePathFacts FS FSFacts Notions RunFacts.
Import VideoConverter Pairer Stripper Converter Promotion.

Lemma res_try_except {A : Type} (m : M A) (h : exn -> M A) (w : node) :
  res (try_except m h w) =
  match res (m w) with
  | Ret a => Ret a
  | Raise e => res (h e (fs_after (m w)))
  end.
Proof.
  unfold try_except, try_catch.
  destruct (res (m w)) eqn:E; [assumption | reflexivity].
Qed.

(** Pairing never raises: every path it stats was just listed. *)
Lemma find_m4s_files_returns (self : t) (folder : path) (w : node) :
  raised (res (find_m4s_files self folder w)) = false.
Proof.
  destruct (glob_ext w folder ".m4s") as [|x [|y [|z l]]] eqn:Hg;
    try (unfold find_m4s_files; rewrite res_bind;
         unfold peek; cbn [res fs_after]; rewrite Hg; reflexivity).
  assert (Hin : forall p, In p [x; y] -> exists n, resolve w p = Ret n).
  { intros p Hp; apply (glob_ext_resolves w folder ".m4s"); now rewrite Hg. }
  destruct (Hin x (or_introl eq_refl)) as [nx Hnx].
  destruct (Hin y (or_intror (or_introl eq_refl))) as [ny Hny].
  rewrite (find_m4s_files_two self folder x y w Hg).
  rewrite (classify_two x y w nx ny Hnx Hny).
  destruct (is_video x), (is_video y), (is_audio x), (is_audio y); reflexivity.
Qed.

Lemma endswith_nonempty (s suf : string) :
  endswith s suf = true -> suf <> "" -> s <> "".
Proof.
  intros H Hs ->; apply endswith_spec in H as [pre H].
  destruct pre; simpl in H; [now subst | discriminate].
Qed.

(** A listed fragment has a name. *)
Lemma glob_ext_named (w : node) (d : path) (p : path) :
  In p (glob_ext w d ".m4s") -> name p <> "".
Proof.
  intros H; destruct (glob_ext_child w d ".m4s" p H) as (c & -> & Hc).
  rewrite name_joinpath; eapply endswith_nonempty; [exact Hc | discriminate].
Qed.

Lemma append_temp_nonempty (s : string) : (s ++ ".temp")%string <> "".
Proof. now destruct s. Qed.

Section Escapes.

Variable ffmpeg : path -> path -> path -> node -> outcome unit * node.
Variable self : t.

(** What [merge_video_audio] lets through is what [ffmpeg] raised, other
    than the two classes it handles. *)
Lemma merge_video_audio_raise (v a o : path) (w : node) (e : exn) :
  res (merge_video_audio ffmpeg self v a o w) = Raise e ->
  fst (ffmpeg v a o w) = Raise e /\
  e <> CalledProcessError /\ e <> FileNotFoundError.
Proof.
  unfold merge_video_audio, try_catch.
  set (body := bind (act (ffmpeg v a o)) _).
  assert (Hb : res (body w)
               = match fst (ffmpeg v a o w) with
                 | Ret _ => Ret true
                 | Raise e => Raise e
                 end).
  { unfold body; rewrite res_bind; unfold act at 1; cbn [res].
    destruct (fst (ffmpeg v a o w)); [|reflexivity].
    rewrite res_bind; reflexivity. }
  rewrite Hb; destruct (fst (ffmpeg v a o w)) as [[]|e0].
  - rewrite Hb; discriminate.
  - destruct e0; cbn [res]; rewrite ?Hb; rewrite ?res_bind;
      cbn [log res fs_after]; rewrite ?res_bind; cbn [log ret res fs_after];
      try discriminate;
      intros [= <-]; repeat split; discriminate.
Qed.

(** An exception leaves [convert_single_folder] in two ways only: from the
    unlink of the video temporary file after a failed audio strip, and from
    [ffmpeg] raising something other than [CalledProcessError] and
    [FileNotFoundError]. *)
Lemma convert_single_folder_raise_sources (folder : path) (w : node) (e : exn) :
  res (convert_single_folder ffmpeg self folder w) = Raise e ->
  (exists v a vt,
     res (find_m4s_files self folder w) = Ret (Some v, Some a) /\
     res (remove_encryption_header self v w) = Ret (Some vt) /\
     res (remove_encryption_header self a
            (fs_after (remove_encryption_header self v w))) = Ret None /\
     fst (unlink (fs_after (remove_encryption_header self v w)) vt) = Raise e) \/
  (e <> CalledProcessError /\ e <> FileNotFoundError /\
   exists v a o w', fst (ffmpeg v a o w') = Raise e).
Proof.
  intros H.
  pose proof (find_m4s_files_returns self folder w) as Hfr.
  pose proof (find_m4s_files_pure self folder w) as Hpure.
  unfold convert_single_folder in H.
  rewrite res_bind in H; cbn [log res fs_after] in H.
  rewrite res_bind, Hpure in H.
  destruct (res (find_m4s_files self folder w)) as [[[v|] [a|]]|e0] eqn:Ef;
    try discriminate.
  destruct (find_m4s_files_some self folder v a w Ef) as (Iv & Ia & _ & _).
  pose proof (remove_encryption_header_returns self v w
                (glob_ext_named w folder v Iv)) as Hv.
  rewrite res_bind in H.
  destruct (res (remove_encryption_header self v w)) as [[vt|]|e1] eqn:Ev;
    try discriminate.
  set (w1 := fs_after (remove_encryption_header self v w)) in *.
  pose proof (remove_encryption_header_returns self a w1
                (glob_ext_named w folder a Ia)) as Ha.
  rewrite res_bind in H.
  destruct (res (remove_encryption_header self a w1)) as [[at_|]|e2] eqn:Ea;
    try discriminate.
  - (* both strips succeeded *)
    destruct (strip_some self v vt w Ev) as (Evt & _).
    destruct (strip_some self a at_ w1 Ea) as (Eat & _).
    assert (Hvm : exists vmp4, with_suffix vt ".mp4" = Ret vmp4).
    { eexists; apply with_suffix_stem; [reflexivity|].
      rewrite Evt, name_joinpath; apply append_temp_nonempty. }
    assert (Ham : exists amp4, with_suffix at_ ".mp4" = Ret amp4).
    { eexists; apply with_suffix_stem; [reflexivity|].
      rewrite Eat, name_joinpath; apply append_temp_nonempty. }
    destruct Hvm as [vmp4 Hvm]; destruct Ham as [amp4 Ham].
    rewrite Hvm, Ham in H.
    rewrite res_bind in H; cbn [lift res fs_after] in H.
    rewrite res_bind in H; cbn [lift res fs_after] in H.
    rewrite res_bind, res_try_except in H.
    match type of H with
    | context [res (?m ?x)] =>
        match m with
        | bind (act _) _ => destruct (res (m x)) as [[b|]|e3]
        end
    end.
    + discriminate.
    + rewrite res_bind in H.
      match type of H with
      | context [merge_video_audio ffmpeg self ?v' ?a' ?o' ?w'] =>
          destruct (res (merge_video_audio ffmpeg self v' a' o' w'))
            as [ok|e4] eqn:Em
      end.
      * rewrite res_bind, res_try_except in H.
        match type of H with
        | context [res (?m ?x)] =>
            match m with
            | bind (act _) _ => destruct (res (m x)) as [[]|e5]
            end
        end; [discriminate|].
        cbn [log res] in H; discriminate.
      * injection H as <-.
        destruct (merge_video_audio_raise _ _ _ _ _ Em) as (Hf & H1 & H2).
        right; repeat split; eauto.
    + rewrite res_bind in H; cbn [log res fs_after] in H; discriminate.
  - (* the audio strip failed: the unlink is what is left *)
    rewrite (strip_none self a w1 Ea) in H.
    rewrite res_bind in H; unfold act at 1 in H; cbn [res] in H.
    destruct (fst (unlink w1 vt)) as [[]|e3] eqn:Eu; [discriminate|].
    injection H as <-; left; exists v, a, vt; auto.
Qed.

End Escapes.

End Escapes.

(** ** The claims about a failed step *)

Module FailedStep.

Import PyStr PyStrFacts PurePath PurePathFacts FS FSFacts Notions RunFacts.
Import VideoConverter Pairer Stripper Converter Promotion Samples.



(** C7, as the code has it.  After a failed strip step the files written
    by the folder's earlier steps are gone when the folder is reported as
    failed: a failed video strip has written nothing, and a failed audio
    strip is followed by the unlink of the video temporary file.  After a
    failed rename step the folder is reported as failed and nothing is
    removed: the stripped audio is still there under its temporary name,
    and the stripped video under its temporary name or, when only the
    second rename failed, under its promoted name. *)
Theorem failed_step_leftovers
    (ffmpeg : path -> path -> path -> node -> outcome unit * node)
    (self : t) (folder v a : path) (w : node) :
  res (find_m4s_files self folder w) = Ret (Some v, Some a) ->
  let r := convert_single_folder ffmpeg self folder w in
  let r1 := remove_encryption_header self v w in
  let r2 := remove_encryption_header self a (fs_after r1) in
  (res r1 = Ret None -> res r = Ret false /\ fs_after r = w) /\
  (forall vt,
     res r1 = Ret (Some vt) -> res r2 = Ret None -> res r = Ret false ->
     exists_ (fs_after r) vt = false) /\
  (forall vt at_ vmp4 amp4 e,
     res r1 = Ret (Some vt) -> res r2 = Ret (Some at_) ->
     with_suffix vt ".mp4" = Ret vmp4 -> with_suffix at_ ".mp4" = Ret amp4 ->
     res (promote vt vmp4 at_ amp4 (fs_after r2)) = Raise e ->
     res r = Ret false /\
     exists vdata adata,
       read_bytes w v = Ret vdata /\ read_bytes w a = Ret adata /\
       resolve (fs_after r) at_ = Ret (File (skipn HEADER_LEN adata)) /\
       (resolve (fs_after r) vt = Ret (File (skipn HEADER_LEN vdata)) \/
        resolve (fs_after r) vmp4 = Ret (File (skipn HEADER_LEN vdata)))).
Proof.
  intros Hf r r1 r2; split; [|split].
  - intros H1; now apply (convert_single_folder_video_failed ffmpeg self folder v a).
  - intros vt H1 H2.
    apply (audio_failed_cleanup ffmpeg self folder v a vt w Hf H1 H2).
  - intros vt at_ vmp4 amp4 e H1 H2 Hvm Ham Hp.
    destruct (convert_single_folder_rename_failed ffmpeg self folder v a vt at_
                vmp4 amp4 w e Hf H1 H2 Hvm Ham Hp) as [Hr Hfs].
    split; [exact Hr|]; unfold r; rewrite Hfs.
    exact (rename_failed_leaves_files self folder v a vt at_ vmp4 amp4 w e
             Hf H1 H2 Hvm Ham Hp).
Qed.

Lemma failed_step_leftovers_witness :
  let w := root_of [("A", blocked_rename_folder)] in
  let r := convert_single_folder mux_concat Samples.self ["A"] w in
  res r = Ret false /\
  exists vdata adata,
    read_bytes w ["A"; "v080.m4s"] = Ret vdata /\
    read_bytes w ["A"; "a280.m4s"] = Ret adata /\
    resolve (fs_after r) ["A"; "a280.temp"]
    = Ret (File (skipn HEADER_LEN adata)) /\
    (resolve (fs_after r) ["A"; "v080.temp"]
     = Ret (File (skipn HEADER_LEN vdata)) \/
     resolve (fs_after r) ["A"; "v080.mp4"]
     = Ret (File (skipn HEADER_LEN vdata))).
Proof.
  intros w r.
  destruct (failed_step_leftovers mux_concat Samples.self ["A"]
              ["A"; "v080.m4s"] ["A"; "a280.m4s"] w)
    as (_ & _ & H); [vm_compute; reflexivity|].
  apply (H ["A"; "v080.temp"] ["A"; "a280.temp"] ["A"; "v080.mp4"]
           ["A"; "a280.mp4"] IsADirectoryError); vm_compute; reflexivity.
Defined.

(** C7 as stated fails at the rename step: in a folder where a directory
    takes the promoted video's name, the first rename raises, the folder is
    reported as failed, and both temporary files, which the conversion
    itself created, are still there. *)
Lemma rename_failure_leaves_temp_files :
  let w := root_of [("A", blocked_rename_folder)] in
  let r := convert_single_folder mux_concat Samples.self ["A"] w in
  res r = Ret false /\
  In (RenameError IsADirectoryError) (logged r) /\
  exists_ w ["A"; "v080.temp"] = false /\
  exists_ w ["A"; "a280.temp"] = false /\
  exists_ (fs_after r) ["A"; "v080.temp"] = true /\
  exists_ (fs_after r) ["A"; "a280.temp"] = true.
Proof. vm_compute; intuition. Qed.

(** C9 at its failing input.  In a folder without write permission that
    still holds the video's temporary file, the video strip succeeds, the
    audio strip fails, and the unguarded [video_temp.unlink()] raises
    [PermissionError] out of [convert_single_folder]; [convert_all] has no
    handler either, so the run ends there and the next folder is never
    started. *)
Theorem convert_single_folder_raises :
  let w := root_of [("A", read_only_folder); ("B", good_folder)] in
  res (find_m4s_files Samples.self ["A"] w)
  = Ret (Some ["A"; "v080.m4s"], Some ["A"; "a280.m4s"]) /\
  res (convert_single_folder mux_concat Samples.self ["A"] w)
  = Raise PermissionError /\
  In (StripError ["A"; "a280.m4s"] PermissionError)
     (logged (convert_single_folder mux_concat Samples.self ["A"] w)) /\
  res (convert_all mux_concat Samples.self w) = Raise PermissionError /\
  ~ In (FolderStart "B") (logged (convert_all mux_concat Samples.self w)) /\
  res (convert_single_folder mux_concat Samples.self ["B"] w) = Ret true.
Proof.
  vm_compute; repeat split; auto 10.
  intros H; repeat (destruct H as [H|H]; [discriminate H|]); exact H.
Qed.

End FailedStep.

(** * The batch driver *)

Module Driver.

Import PyStr PyStrFacts PurePath PurePathFacts FS FSFacts Notions RunFacts.
Import VideoConverter Pairer Stripper Converter Promotion.

Ltac emits_step :=
  match goal with
  | |- emits _ (bind _ _) => apply emits_bind; [|intros ?]
  | |- emits _ (try_except _ _) => apply emits_try_except; [|intros ?]
  | |- emits _ (ret _) => apply emits_ret
  | |- emits _ (lift _) => apply emits_lift
  | |- emits _ (peek _) => apply emits_peek
  | |- emits _ (act _) => apply emits_act
  | |- emits _ (log _) => apply emits_log; exact I
  | |- emits _ (match ?x with _ => _ end) => destruct x
  end.

Lemma classify_emits (files : list path) (v a : option path) :
  emits from_steps (classify files v a).
Proof.
  revert v a; induction files as [|f files IH]; intros v a; simpl.
  - apply emits_ret.
  - repeat emits_step; apply IH.
Qed.

Lemma find_m4s_files_emits (self : t) (folder : path) :
  emits from_steps (find_m4s_files self folder).
Proof.
  unfold find_m4s_files.
  apply emits_bind; [apply emits_peek | intros files].
  destruct (negb _); [repeat emits_step|].
  apply emits_bind; [apply classify_emits | intros r]; repeat emits_step.
Qed.

Lemma remove_encryption_header_emits (self : t) (p : path) :
  emits from_steps (remove_encryption_header self p).
Proof. unfold remove_encryption_header; repeat emits_step. Qed.

Section Loop.

Variable ffmpeg : path -> path -> path -> node -> outcome unit * node.
Variable self : t.

Lemma merge_video_audio_emits (v a o : path) :
  emits from_steps (merge_video_audio ffmpeg self v a o).
Proof.
  unfold merge_video_audio; apply emits_try_catch; [repeat emits_step|].
  intros e h; destruct e; intros [= <-]; repeat emits_step.
Qed.

(** The log of one folder's conversion: its [FolderStart] record, then
    records of the steps. *)
Lemma convert_single_folder_logged (folder : path) (w : node) :
  exists l,
    logged (convert_single_folder ffmpeg self folder w)
    = FolderStart (name folder) :: l /\ Forall from_steps l.
Proof.
  unfold convert_single_folder, bind at 1; cbn [log res fs_after logged app].
  eexists; split; [reflexivity|].
  match goal with |- Forall _ (logged (?m w)) => assert (H : emits from_steps m) end;
    [|apply H].
  apply emits_bind; [apply find_m4s_files_emits | intros found].
  destruct found as [[v|] [a|]]; try apply emits_ret.
  apply emits_bind; [apply remove_encryption_header_emits | intros vt].
  destruct vt as [vt|]; [|apply emits_ret].
  apply emits_bind; [apply remove_encryption_header_emits | intros at_].
  destruct at_ as [at_|]; [|repeat emits_step].
  do 3 (apply emits_bind; [repeat emits_step | intros ?]).
  match goal with |- emits _ (match ?x with _ => _ end) => destruct x end;
    [apply emits_ret|].
  apply emits_bind; [apply merge_video_audio_emits | intros ?].
  repeat emits_step.
Qed.





(** One turn of the loop on an entry the test rejects. *)
Lemma convert_loop_skip (f : path) (rest : list path) (s n : nat) (w : node) :
  selected w f = false ->
  convert_loop ffmpeg self (f :: rest) s n w
  = Run (res (convert_loop ffmpeg self rest s n w))
        (fs_after (convert_loop ffmpeg self rest s n w))
        (logged (convert_loop ffmpeg self rest s n w)).
Proof.
  unfold selected; intros H; cbn [convert_loop]; unfold bind at 1, peek.
  cbn [res fs_after logged app]; now rewrite H.
Qed.

(** One turn of the loop on an entry the test accepts. *)
Lemma convert_loop_run (f : path) (rest : list path) (s n : nat) (w : node) :
  selected w f = true ->
  let r := convert_single_folder ffmpeg self f w in
  convert_loop ffmpeg self (f :: rest) s n w
  = match res r with
    | Ret ok =>
        let k := convert_loop ffmpeg self rest (if ok then S s else s) (S n)
                   (fs_after r) in
        Run (res k) (fs_after k)
            (logged r ++ (if ok then Converted (name f) else Failed (name f))
                         :: logged k)
    | Raise e => Run (Raise e) (fs_after r) (logged r)
    end.
Proof.
  unfold selected; intros H; cbv zeta; cbn [convert_loop].
  unfold bind at 1, peek; cbn [res fs_after logged app]; rewrite H.
  destruct (res (convert_single_folder ffmpeg self f w)) as [ok|e] eqn:E.
  - rewrite (bind_ret_l _ _ w ok E); cbn [res fs_after logged].
    destruct ok; unfold bind at 1 2 3, log; cbn [res fs_after logged app];
      reflexivity.
  - rewrite (bind_raise _ _ w e E); reflexivity.
Qed.


Lemma convert_loop_logged (folders : list path) :
  forall (s n : nat) (w : node),
    Forall loop_record (logged (convert_loop ffmpeg self folders s n w)).
Proof.
  induction folders as [|f rest IH]; intros s n w; [constructor|].
  destruct (selected w f) eqn:Hsel.
  - pose proof (convert_loop_run f rest s n w Hsel) as E; cbv zeta in E.
    rewrite E; clear E.
    assert (Hnm : name f <> "converted_videos").
    { unfold selected in Hsel; apply andb_true_iff in Hsel as [_ Hn].
      now destruct (String.eqb_spec (name f) "converted_videos"). }
    assert (Hf : Forall loop_record
                   (logged (convert_single_folder ffmpeg self f w))).
    { destruct (convert_single_folder_logged f w) as (l & -> & Hl).
      constructor; [right; eauto|].
      eapply Forall_impl; [|exact Hl]; intros; now left. }
    destruct (res (convert_single_folder ffmpeg self f w)) as [ok|e];
      cbn [logged]; [|assumption].
    apply Forall_app; split; [assumption|].
    constructor; [|apply IH].
    right; exists (name f); destruct ok; auto.
  - rewrite (convert_loop_skip f rest s n w Hsel); apply IH.
Qed.

End Loop.

End Driver.

(** ** The claims about the batch driver *)

Module Batch.

Import PyStr PyStrFacts PurePath PurePathFacts FS FSFacts Notions RunFacts.
Import VideoConverter Pairer Stripper Converter Promotion Driver Samples.

Section Run.

Variable ffmpeg : path -> path -> path -> node -> outcome unit * node.
Variable self : t.

(** The fail-fast return of [convert_all]. *)
Lemma convert_all_missing (w : node) :
  exists_ w (input_dir self) = false ->
  convert_all ffmpeg self w = Run (Ret 0) w [InputMissing (input_dir self)].
Proof.
  intros H; unfold convert_all, bind at 1, peek; cbn [res fs_after logged].
  rewrite H; reflexivity.
Qed.

(** [convert_all] on an input directory that exists. *)
Lemma convert_all_present (w : node) :
  exists_ w (input_dir self) = true ->
  convert_all ffmpeg self w
  = match listdir w (input_dir self) with
    | Raise e => Run (Raise e) w []
    | Ret folders =>
        let k := convert_loop ffmpeg self folders 0 0 w in
        match res k with
        | Ret counts =>
            Run (Ret (fst counts)) (fs_after k)
                (logged k ++ [Summary (fst counts) (snd counts);
                              OutputDir (output_dir self)])
        | Raise e => Run (Raise e) (fs_after k) (logged k)
        end
    end.
Proof.
  intros H; unfold convert_all.
  rewrite (bind_ret_l _ _ w true) by (unfold peek; cbn [res]; now rewrite H).
  cbn [negb peek res fs_after logged app].
  destruct (listdir w (input_dir self)) as [folders|e] eqn:El.
  - rewrite (bind_ret_l (peek (fun w => listdir w (input_dir self))) _ w
               folders El).
    cbn [peek res fs_after logged app]; cbv zeta.
    destruct (res (convert_loop ffmpeg self folders 0 0 w)) as [counts|e] eqn:E.
    + rewrite (bind_ret_l _ _ w counts E).
      unfold bind, log, ret; cbn [res fs_after logged app]; reflexivity.
    + rewrite (bind_raise _ _ w e E); reflexivity.
  - rewrite (bind_raise (peek (fun w => listdir w (input_dir self))) _ w e El).
    reflexivity.
Qed.

Lemma convert_all_logged (w : node) :
  Forall (fun r => loop_record r \/ driver_record r)
         (logged (convert_all ffmpeg self w)).
Proof.
  destruct (exists_ w (input_dir self)) eqn:E.
  - rewrite (convert_all_present w E).
    destruct (listdir w (input_dir self)) as [folders|e]; [|constructor].
    cbv zeta.
    assert (Hl : Forall (fun r => loop_record r \/ driver_record r)
                   (logged (convert_loop ffmpeg self folders 0 0 w))).
    { eapply Forall_impl; [|apply convert_loop_logged]; intros; now left. }
    destruct (res (convert_loop ffmpeg self folders 0 0 w)) as [c|e];
      cbn [logged]; [|assumption].
    apply Forall_app; split; [assumption|].
    constructor; [right; exact I|].
    constructor; [right; exact I | constructor].
  - rewrite (convert_all_missing w E).
    constructor; [right; exact I | constructor].
Qed.

Lemma convert_all_never_starts_output_folder (w : node) :
  ~ In (FolderStart "converted_videos") (logged (convert_all ffmpeg self w)).
Proof.
  intros Hin.
  pose proof (convert_all_logged w) as Hall.
  rewrite Forall_forall in Hall; specialize (Hall _ Hin).
  destruct Hall as [[H | (nm & Hne & [H | [H | H]])] | H];
    try discriminate; try contradiction.
  injection H as <-; contradiction.
Qed.

End Run.

(** C8.  No run of [convert_all] starts converting the folder named
    [converted_videos]: its log has no [FolderStart] record for it, on a
    first run and on a run over what that run left behind; and the turn of
    the loop on that entry changes nothing and counts nothing. *)
Theorem output_folder_never_processed
    (ffmpeg : path -> path -> path -> node -> outcome unit * node)
    (self : t) (w : node) :
  ~ In (FolderStart "converted_videos") (logged (convert_all ffmpeg self w)) /\
  ~ In (FolderStart "converted_videos")
       (logged (convert_all ffmpeg self
                  (fs_after (convert_all ffmpeg self w)))) /\
  forall (rest : list path) (s n : nat) (w' : node),
    convert_loop ffmpeg self
      (joinpath (input_dir self) "converted_videos" :: rest) s n w'
    = Run (res (convert_loop ffmpeg self rest s n w'))
          (fs_after (convert_loop ffmpeg self rest s n w'))
          (logged (convert_loop ffmpeg self rest s n w')).
Proof.
  repeat split; try apply convert_all_never_starts_output_folder.
  intros rest s n w'; apply convert_loop_skip.
  unfold selected; rewrite name_joinpath, String.eqb_refl; apply andb_false_r.
Qed.




End Batch.

(** ** Construction *)

Module Construction.

Import PyStr PyStrFacts PurePath PurePathFacts FS FSFacts Notions RunFacts.
Import VideoConverter Converter Driver Batch Samples.

(** Resolution fails in two ways only. *)
Lemma resolve_raise (w : node) (p : path) (e : exn) :
  resolve w p = Raise e -> e = FileNotFoundError \/ e = NotADirectoryError.
Proof.
  revert w; induction p as [|c p IH]; intros w; simpl; [discriminate|].
  destruct w as [|wr es]; [intros [= <-]; auto|].
  destruct (assoc c es); [apply IH | intros [= <-]; auto].
Qed.

(** [__init__], run. *)
Lemma init_run (d : path) (w : node) :
  __init__ d w
  = let m := mkdir w (joinpath d "converted_videos") true in
    Run (match fst m with
         | Ret _ => Ret (Build d (joinpath d "converted_videos"))
         | Raise e => Raise e
         end) (snd m) [].
Proof.
  unfold __init__, bind, act, ret; cbn [res fs_after logged app].
  now destruct (fst (mkdir w (joinpath d "converted_videos") true)).
Qed.

(** [mkdir] under a directory that does not resolve: the lookup error comes
    back and nothing is created. *)
Lemma mkdir_no_parent (w : node) (d : path) (c : string) (e : exn) :
  resolve w d = Raise e -> mkdir w (joinpath d c) true = (Raise e, w).
Proof.
  intros H; unfold mkdir, os_mkdir.
  destruct (joinpath d c) as [|x l] eqn:E; [now destruct d|].
  rewrite <- E, parent_joinpath, H.
  assert (Hd : is_dir w (joinpath d c) = false).
  { unfold is_dir, joinpath; now rewrite resolve_app, H. }
  rewrite Hd; now destruct e.
Qed.

(** After a [mkdir] that returned, the directory and its parent are
    there. *)
Lemma mkdir_ok (w : node) (d : path) (c : string) :
  fst (mkdir w (joinpath d c) true) = Ret tt ->
  is_dir (snd (mkdir w (joinpath d c) true)) (joinpath d c) = true /\
  is_dir (snd (mkdir w (joinpath d c) true)) d = true.
Proof.
  unfold mkdir, os_mkdir.
  destruct (joinpath d c) as [|x l] eqn:E; [now destruct d|].
  rewrite <- E, parent_joinpath.
  assert (Hexists : is_dir w (joinpath d c) = true -> is_dir w d = true).
  { intros Hd; unfold is_dir in *.
    destruct (resolve w (joinpath d c)) as [n|] eqn:R; [|discriminate].
    now destruct (resolve_parent_dir w d c n R) as (wr & es & -> & _). }
  destruct (resolve w d) as [[data|wr es]|e] eqn:Rd.
  - cbn [fst snd]; destruct (is_dir w (joinpath d c)) eqn:Hd;
      cbn [andb fst snd]; [intros _; split; [exact Hd | now apply Hexists] | discriminate].
  - destruct (resolve w (joinpath d c)) as [n|e] eqn:R.
    + cbn [fst snd]; destruct (is_dir w (joinpath d c)) eqn:Hd;
        cbn [andb fst snd]; [intros _; split; [exact Hd | now apply Hexists] | discriminate].
    + destruct wr.
      * cbn [fst snd]; intros _; unfold is_dir.
        rewrite (resolve_put_same w d c _ true es Rd).
        now rewrite (resolve_put_parent w d c _ true es Rd).
      * cbn [fst snd]; destruct (is_dir w (joinpath d c)) eqn:Hd;
          cbn [andb fst snd]; [intros _; split; [exact Hd | now apply Hexists] | discriminate].
  - destruct e; cbn [fst snd];
      destruct (is_dir w (joinpath d c)) eqn:Hd; cbn [andb fst snd];
      try discriminate; intros _; (split; [exact Hd | now apply Hexists]).
Qed.

(** C10.  [__init__] makes the output directory at once.  On an input root
    that does not exist the [mkdir] raises, for lack of a parent, and
    nothing is created; and when [__init__] returns, the input root exists,
    with [converted_videos] a directory in it.  So the fail-fast branch of
    [convert_all], which is taken exactly when the input root does not
    exist, is not taken on the file system the constructor left: it needs
    the root to go away in between. *)
Theorem init_creates_output_dir_first
    (ffmpeg : path -> path -> path -> node -> outcome unit * node)
    (d : path) (w : node) :
  (exists_ w d = false ->
   (res (__init__ d w) = Raise FileNotFoundError \/
    res (__init__ d w) = Raise NotADirectoryError) /\
   fs_after (__init__ d w) = w) /\
  (forall self,
     res (__init__ d w) = Ret self ->
     input_dir self = d /\
     output_dir self = joinpath d "converted_videos" /\
     is_dir (fs_after (__init__ d w)) (output_dir self) = true /\
     exists_ (fs_after (__init__ d w)) (input_dir self) = true /\
     ~ In (InputMissing (input_dir self))
          (logged (convert_all ffmpeg self (fs_after (__init__ d w))))) /\
  (forall self w',
     (exists_ w' (input_dir self) = false ->
      convert_all ffmpeg self w'
      = Run (Ret 0) w' [InputMissing (input_dir self)]) /\
     (exists_ w' (input_dir self) = true ->
      ~ In (InputMissing (input_dir self))
           (logged (convert_all ffmpeg self w')))).
Proof.
  assert (Hpresent : forall self w',
            exists_ w' (input_dir self) = true ->
            ~ In (InputMissing (input_dir self))
                 (logged (convert_all ffmpeg self w'))).
  { intros self w' E Hin.
    rewrite (convert_all_present ffmpeg self w' E) in Hin.
    destruct (listdir w' (input_dir self)) as [folders|e]; [|contradiction].
    cbv zeta in Hin.
    pose proof (convert_loop_logged ffmpeg self folders 0 0 w') as Hall.
    rewrite Forall_forall in Hall.
    assert (Hloop : ~ In (InputMissing (input_dir self))
                      (logged (convert_loop ffmpeg self folders 0 0 w'))).
    { intros H; destruct (Hall _ H) as [F | (nm & _ & [F | [F | F]])];
        [contradiction | discriminate..]. }
    destruct (res (convert_loop ffmpeg self folders 0 0 w')) as [c|e];
      cbn [logged] in Hin; [|contradiction].
    apply in_app_or in Hin as [Hin | [Hin | [Hin | []]]];
      [contradiction | discriminate..]. }
  split; [|split].
  - unfold exists_; intros E.
    destruct (resolve w d) as [n|e] eqn:R; [discriminate|].
    rewrite init_run; cbv zeta.
    rewrite (mkdir_no_parent w d "converted_videos" e R); cbn [fst snd res fs_after].
    split; [|reflexivity].
    destruct (resolve_raise w d e R) as [-> | ->]; auto.
  - intros self; rewrite init_run; cbv zeta; cbn [res fs_after].
    destruct (fst (mkdir w (joinpath d "converted_videos") true)) as [[]|e] eqn:Em;
      [|discriminate].
    intros [= <-]; cbn [input_dir output_dir].
    destruct (mkdir_ok w d "converted_videos" Em) as [Ho Hd].
    assert (He : exists_ (snd (mkdir w (joinpath d "converted_videos") true)) d
                 = true).
    { unfold is_dir, exists_ in *.
      now destruct (resolve (snd (mkdir w (joinpath d "converted_videos") true)) d). }
    repeat split; try assumption.
    apply (Hpresent (Build d (joinpath d "converted_videos"))); exact He.
  - intros self w'; split; [apply convert_all_missing | apply Hpresent].
Qed.

Lemma init_creates_output_dir_first_witness :
  let w := Dir true [("A", good_folder)] in
  ((res (__init__ ["nowhere"] w) = Raise FileNotFoundError \/
    res (__init__ ["nowhere"] w) = Raise NotADirectoryError) /\
   fs_after (__init__ ["nowhere"] w) = w) /\
  is_dir (fs_after (__init__ [] w)) ["converted_videos"] = true /\
  ~ In (InputMissing [])
       (logged (convert_all mux_concat (Build [] ["converted_videos"])
                  (fs_after (__init__ [] w)))).
Proof.
  intros w; split.
  - apply (proj1 (init_creates_output_dir_first mux_concat ["nowhere"] w)).
    vm_compute; reflexivity.
  - destruct (proj1 (proj2 (init_creates_output_dir_first mux_concat [] w))
                (Build [] ["converted_videos"]))
      as (_ & _ & Hout & _ & Hrun); [vm_compute; reflexivity|].
    split; [exact Hout | exact Hrun].
Defined.

End Construction.


(** * More about the models *)

(** ** Names of the intermediate files *)

Module Names.

Import PyStr PyStrFacts PurePath PurePathFacts.

Lemma rfind_app (c : ascii) (l1 l2 : list ascii) :
  rfind c (l1 ++ l2) =
  match rfind c l2 with
  | Some i => Some (List.length l1 + i)
  | None => rfind c l1
  end.
Proof.
  induction l1 as [|x l1 IH]; simpl.
  - now destruct (rfind c l2).
  - rewrite IH; now destruct (rfind c l2).
Qed.

Lemma length_append (s t : string) :
  String.length (s ++ t)%string = String.length s + String.length t.
Proof. induction s as [|c s IH]; simpl; [reflexivity | now rewrite IH]. Qed.

(** A name made of a non-empty text and an extension without further dots
    has that text as its stem. *)
Lemma stem_of_name_ext (s ext : string) :
  s <> "" -> ext <> "" -> rfind "."%char (chars ext) = None ->
  stem_of_name (s ++ "." ++ ext)%string = s.
Proof.
  intros Hs He Hr; unfold stem_of_name, has_suffix_at.
  rewrite chars_app; change (chars ("." ++ ext)%string) with ("."%char :: chars ext).
  rewrite rfind_app; simpl; rewrite Hr; simpl.
  rewrite Nat.add_0_r, chars_length, length_append; simpl.
  assert (0 < String.length s) by (destruct s; simpl; [contradiction | lia]).
  assert (0 < String.length ext) by (destruct ext; simpl; [contradiction | lia]).
  replace (0 <? String.length s)%nat with true by (symmetry; apply Nat.ltb_lt; lia).
  replace (String.length s <? String.length s + S (String.length ext) - 1)%nat
    with true by (symmetry; apply Nat.ltb_lt; lia).
  simpl; unfold slice_to; rewrite chars_app.
  rewrite <- (chars_length s), firstn_app, Nat.sub_diag, firstn_all; simpl.
  rewrite app_nil_r; apply str_chars.
Qed.

Lemma stem_of_name_temp (s : string) :
  s <> "" -> stem_of_name (s ++ ".temp")%string = s.
Proof. intros H; now apply (stem_of_name_ext s "temp"). Qed.

Lemma endswith_080_nonempty (s : string) : endswith s "080" = true -> s <> "".
Proof. intros H ->; discriminate. Qed.

Lemma endswith_280_nonempty (s : string) : endswith s "280" = true -> s <> "".
Proof. intros H ->; discriminate. Qed.

(** The promoted name of a temporary file is the stem with [.mp4]. *)
Lemma with_suffix_temp_mp4 (d : path) (s : string) :
  s <> "" ->
  with_suffix (joinpath d (s ++ ".temp")%string) ".mp4"
  = Ret (joinpath d (s ++ ".mp4")%string).
Proof.
  intros Hs.
  rewrite with_suffix_stem; [|reflexivity|].
  - unfold stem; now rewrite parent_joinpath, name_joinpath, stem_of_name_temp.
  - rewrite name_joinpath; now destruct s.
Qed.

Lemma append_mp4_not_m4s (s s' : string) :
  (s ++ ".mp4")%string <> (s' ++ ".m4s")%string.
Proof.
  intros H; apply (f_equal (fun x => rev (chars x))) in H.
  rewrite !chars_app, !rev_app_distr in H; discriminate.
Qed.

End Names.

(** ** Operations on the children of a directory *)

Module Children.

Import PurePath PurePathFacts FS FSFacts Notions.

(** Paths that part ways resolve the same before and after [put]. *)
Lemma resolve_put_frame (p q : path) (x : node) :
  forall w, is_prefix p q = false -> is_prefix q p = false ->
            resolve (put w p x) q = resolve w q.
Proof.
  revert q; induction p as [|c p IH]; intros q w Hpq Hqp; [discriminate|].
  destruct q as [|c' q]; [discriminate|].
  simpl in Hpq, Hqp.
  destruct w as [data|wr es]; [reflexivity|].
  destruct (String.eqb_spec c c') as [<-|Hne].
  - rewrite String.eqb_refl in Hqp; simpl in Hpq, Hqp.
    destruct p as [|b p]; [discriminate|].
    rewrite (put_cons wr es c (b :: p) x) by discriminate.
    destruct (assoc c es) as [n|] eqn:E; simpl; [|now rewrite E].
    rewrite assoc_set_entry_same, E; now apply IH.
  - assert (Ha : forall y, assoc c' (set_entry c y es) = assoc c' es)
      by (intros; now apply assoc_set_entry_other).
    destruct p as [|b p]; simpl; [now rewrite Ha|].
    destruct (assoc c es); simpl; [now rewrite Ha | reflexivity].
Qed.

Lemma set_entry_twice (c : string) (x y : node) (es : list (string * node)) :
  set_entry c y (set_entry c x es) = set_entry c y es.
Proof.
  induction es as [|[c' n] es IH]; simpl.
  - now rewrite String.eqb_refl.
  - destruct (String.eqb c c') eqn:E; simpl.
    + now rewrite String.eqb_refl.
    + now rewrite E, IH.
Qed.

(** Writing a path twice is writing it once. *)
Lemma put_twice (p : path) (x y : node) :
  forall w, put (put w p x) p y = put w p y.
Proof.
  induction p as [|c p IH]; intros w; [reflexivity|].
  destruct w as [data|wr es]; [reflexivity|].
  destruct p as [|b p].
  - simpl; now rewrite set_entry_twice.
  - rewrite (put_cons wr es c (b :: p) x) by discriminate.
    destruct (assoc c es) as [n|] eqn:E.
    + rewrite (put_cons wr _ c (b :: p) y) by discriminate.
      rewrite assoc_set_entry_same, set_entry_twice, IH.
      rewrite (put_cons wr es c (b :: p) y) by discriminate.
      now rewrite E.
    + rewrite (put_cons wr es c (b :: p) y) by discriminate.
      now rewrite E.
Qed.

Section Child.

Variables (w : node) (d : path) (wr : bool) (es : list (string * node)).
Hypothesis Hd : resolve w d = Ret (Dir wr es).

Lemma read_child (c : string) :
  read_bytes w (joinpath d c) =
  match assoc c es with
  | Some (File data) => Ret data
  | Some (Dir _ _) => Raise IsADirectoryError
  | None => Raise FileNotFoundError
  end.
Proof.
  unfold read_bytes; rewrite (resolve_child w d c wr es Hd).
  now destruct (assoc c es) as [[|]|].
Qed.

Lemma write_child (c : string) (data : list byte) :
  write_bytes w (joinpath d c) data =
  if not_dir (assoc c es) && (wr || is_some (assoc c es))
  then (Ret tt, put w (joinpath d c) (File data))
  else (Raise (match assoc c es with
               | Some _ => IsADirectoryError
               | None => PermissionError
               end), w).
Proof.
  unfold write_bytes, open_wb.
  rewrite (resolve_child w d c wr es Hd), parent_joinpath, Hd.
  destruct (assoc c es) as [[|]|]; simpl; try reflexivity;
    destruct wr; reflexivity.
Qed.

Lemma unlink_child (c : string) (data : list byte) :
  assoc c es = Some (File data) ->
  unlink w (joinpath d c) =
  if wr then (Ret tt, del w (joinpath d c)) else (Raise PermissionError, w).
Proof.
  intros H.
  rewrite (Converter.unlink_file w d c data)
    by (now rewrite (resolve_child w d c wr es Hd), H).
  unfold dir_writable; now rewrite Hd.
Qed.

Lemma rename_child (c c' : string) (data : list byte) :
  assoc c es = Some (File data) -> c <> c' ->
  rename w (joinpath d c) (joinpath d c') =
  if negb wr then (Raise PermissionError, w)
  else if not_dir (assoc c' es)
       then (Ret tt, put (del w (joinpath d c)) (joinpath d c') (File data))
       else (Raise IsADirectoryError, w).
Proof.
  intros H Hne; unfold rename.
  rewrite (resolve_child w d c wr es Hd), H, parent_joinpath, Hd.
  rewrite (resolve_child w d c' wr es Hd).
  pose proof (Promotion.path_eqb_joinpath d c c' Hne) as Hpe.
  destruct (joinpath d c) as [|x l] eqn:E1; [now destruct d|].
  destruct (joinpath d c') as [|x' l'] eqn:E2; [now destruct d|].
  rewrite Hpe, <- E1, parent_joinpath.
  unfold dir_writable; rewrite Hd.
  destruct wr; simpl; [|reflexivity].
  now destruct (assoc c' es) as [[|]|].
Qed.

End Child.

End Children.

(** * More about the folder pairer *)

Module PairerMore.

Import PyStr PyStrFacts PurePath PurePathFacts FS FSFacts Notions RunFacts.
Import VideoConverter Pairer Converter Promotion.

(** The result of pairing, read off the listing. *)
Lemma find_m4s_files_by_listing (self : t) (folder : path) (w : node) :
  res (find_m4s_files self folder w) =
  match glob_ext w folder ".m4s" with
  | [x; y] =>
      if is_video x && is_audio y then Ret (Some x, Some y)
      else if is_audio x && is_video y then Ret (Some y, Some x)
      else Ret (None, None)
  | _ => Ret (None, None)
  end.
Proof.
  destruct (glob_ext w folder ".m4s") as [|x [|y [|z l]]] eqn:Hg;
    try (unfold find_m4s_files; rewrite res_bind;
         unfold peek; cbn [res fs_after]; rewrite Hg; reflexivity).
  assert (Hin : forall p, In p [x; y] -> exists n, resolve w p = Ret n).
  { intros p Hp; apply (glob_ext_resolves w folder ".m4s"); now rewrite Hg. }
  destruct (Hin x (or_introl eq_refl)) as [nx Hnx].
  destruct (Hin y (or_intror (or_introl eq_refl))) as [ny Hny].
  rewrite (find_m4s_files_two self folder x y w Hg).
  rewrite (classify_two x y w nx ny Hnx Hny).
  destruct (is_video x) eqn:Vx, (is_video y) eqn:Vy,
           (is_audio x) eqn:Ax, (is_audio y) eqn:Ay;
    try reflexivity;
    try (apply is_video_not_audio in Vx; congruence);
    try (apply is_video_not_audio in Vy; congruence).
Qed.


(** X2.  A pair that [find_m4s_files] returns is sound: the two files are
    exactly the folder's [*.m4s] entries, they are different children of
    the folder, the first has a stem ending in 080 and the second a stem
    ending in 280. *)
Theorem find_m4s_files_sound (self : t) (folder v a : path) (w : node) :
  res (find_m4s_files self folder w) = Ret (Some v, Some a) ->
  Permutation (glob_ext w folder ".m4s") [v; a] /\
  parent v = folder /\ parent a = folder /\ v <> a /\
  endswith (name v) ".m4s" = true /\ endswith (name a) ".m4s" = true /\
  endswith (stem v) "080" = true /\ endswith (stem a) "280" = true.
Proof.
  intros H.
  destruct (find_m4s_files_some self folder v a w H) as (Iv & Ia & Vv & Aa).
  destruct (glob_ext_child w folder ".m4s" v Iv) as (cv & -> & Xv).
  destruct (glob_ext_child w folder ".m4s" a Ia) as (ca & -> & Xa).
  rewrite !parent_joinpath, !name_joinpath.
  assert (Hne : joinpath folder cv <> joinpath folder ca).
  { intros E; rewrite E in Vv; apply is_video_not_audio in Vv; congruence. }
  repeat split; try assumption.
  rewrite find_m4s_files_by_listing in H.
  destruct (glob_ext w folder ".m4s") as [|x [|y [|z l]]]; try discriminate.
  destruct (is_video x && is_audio y).
  - injection H as -> ->; apply Permutation_refl.
  - destruct (is_audio x && is_video y); [|discriminate].
    injection H as -> ->; apply perm_swap.
Qed.

Lemma find_m4s_files_sound_witness :
  let w := Samples.root_of [("A", Samples.good_folder_swapped)] in
  let v := ["A"; "v080.m4s"] in
  let a := ["A"; "a280.m4s"] in
  Permutation (glob_ext w ["A"] ".m4s") [v; a] /\
  parent v = ["A"] /\ parent a = ["A"] /\ v <> a /\
  endswith (name v) ".m4s" = true /\ endswith (name a) ".m4s" = true /\
  endswith (stem v) "080" = true /\ endswith (stem a) "280" = true.
Proof.
  intros w v a.
  apply (find_m4s_files_sound Samples.self ["A"] v a w).
  vm_compute; reflexivity.
Defined.

(** X3.  With a count of [*.m4s] entries other than 2, the one thing
    [find_m4s_files] logs is the warning with the folder's name and the
    count it found; on a path that is not a directory that count is 0. *)
Theorem find_m4s_files_wrong_count (self : t) (folder : path) (w : node) :
  List.length (glob_ext w folder ".m4s") <> 2 ->
  logged (find_m4s_files self folder w)
  = [WrongCount (name folder) (List.length (glob_ext w folder ".m4s"))] /\
  (is_dir w folder = false -> glob_ext w folder ".m4s" = []).
Proof.
  intros Hlen; split.
  - unfold find_m4s_files, bind at 1, peek; cbn [res fs_after logged app].
    apply Nat.eqb_neq in Hlen; rewrite Hlen; reflexivity.
  - unfold is_dir, glob_ext, listdir.
    destruct (resolve w folder) as [[|]|]; try reflexivity; discriminate.
Qed.

Lemma find_m4s_files_wrong_count_witness :
  let w := Samples.root_of [("A", Samples.one_fragment_folder)] in
  logged (find_m4s_files Samples.self ["A"] w) = [WrongCount "A" 1] /\
  logged (find_m4s_files Samples.self ["nowhere"] w) = [WrongCount "nowhere" 0].
Proof.
  intros w; split.
  - apply (find_m4s_files_wrong_count Samples.self ["A"] w).
    vm_compute; discriminate.
  - apply (find_m4s_files_wrong_count Samples.self ["nowhere"] w).
    vm_compute; discriminate.
Defined.



End PairerMore.

(** * More about the header stripper and the muxer call *)

Module StripperMore.

Import PyStr PyStrFacts PurePath PurePathFacts FS FSFacts Notions RunFacts.
Import VideoConverter Pairer Stripper Converter Promotion Children.

Lemma is_prefix_siblings (d : path) (c c' : string) :
  c <> c' -> is_prefix (joinpath d c) (joinpath d c') = false.
Proof.
  intros Hne; unfold joinpath; induction d as [|x d IH]; simpl.
  - destruct (String.eqb_spec c c'); [contradiction | reflexivity].
  - now rewrite String.eqb_refl.
Qed.



(** The input of a successful strip still holds its bytes, unless it is
    itself the temporary file. *)
Lemma strip_keeps_input (self : t) (p temp : path) (w : node) :
  res (remove_encryption_header self p w) = Ret (Some temp) ->
  temp <> p ->
  read_bytes (fs_after (remove_encryption_header self p w)) p = read_bytes w p.
Proof.
  intros H Hne.
  destruct (strip_some self p temp w H) as (Et & data & wr & es & _ & _ & Hfs & _).
  destruct (strip_named self p w _ H) as [t' Ht'].
  destruct (with_suffix_ret _ _ _ Ht') as [_ Hn].
  assert (Hp : p <> []) by (intros ->; now apply Hn).
  assert (Hc : (stem p ++ ".temp")%string <> name p).
  { intros E; apply Hne; rewrite Et, E; symmetry; now apply path_split. }
  assert (Hr : resolve (put w temp (File (skipn HEADER_LEN data))) p = resolve w p).
  { assert (G : forall q, q = joinpath (parent p) (name p) ->
                resolve (put w temp (File (skipn HEADER_LEN data))) q = resolve w q).
    { intros q ->; rewrite Et.
      apply resolve_put_frame; apply is_prefix_siblings; congruence. }
    apply G, path_split, Hp. }
  unfold read_bytes; now rewrite Hfs, Hr.
Qed.

(** X6.  A successful strip writes the temporary file and nothing else:
    every path that neither leads to the temporary file nor lies under it
    resolves as before, and the input fragment still holds its bytes
    unless it is itself named [.temp]. *)
Theorem remove_encryption_header_frame (self : t) (p temp : path) (w : node) :
  res (remove_encryption_header self p w) = Ret (Some temp) ->
  let w1 := fs_after (remove_encryption_header self p w) in
  (forall q, is_prefix temp q = false -> is_prefix q temp = false ->
             resolve w1 q = resolve w q) /\
  (temp <> p -> read_bytes w1 p = read_bytes w p).
Proof.
  intros H w1; split.
  - intros q H1 H2.
    destruct (strip_some self p temp w H) as (_ & data & _ & _ & _ & _ & Hfs & _).
    unfold w1; rewrite Hfs; now apply resolve_put_frame.
  - now apply strip_keeps_input.
Qed.

Lemma remove_encryption_header_frame_witness :
  let w := Samples.root_of [("A", Samples.good_folder)] in
  let w1 := fs_after (remove_encryption_header Samples.self
                        ["A"; "v080.m4s"] w) in
  resolve w1 ["A"; "a280.m4s"] = resolve w ["A"; "a280.m4s"] /\
  read_bytes w1 ["A"; "v080.m4s"] = read_bytes w ["A"; "v080.m4s"].
Proof.
  intros w w1.
  destruct (remove_encryption_header_frame Samples.self
              ["A"; "v080.m4s"] ["A"; "v080.temp"] w) as [H1 H2];
    [vm_compute; reflexivity|].
  split; [apply H1; vm_compute; reflexivity | apply H2; discriminate].
Defined.

(** X7.  Stripping a fragment again changes nothing: after a successful
    strip of a file that is not itself named [.temp], a second strip
    succeeds with the same temporary file and leaves the file system as the
    first one left it. *)
Theorem remove_encryption_header_again (self : t) (p temp : path) (w : node) :
  res (remove_encryption_header self p w) = Ret (Some temp) ->
  temp <> p ->
  let w1 := fs_after (remove_encryption_header self p w) in
  res (remove_encryption_header self p w1) = Ret (Some temp) /\
  fs_after (remove_encryption_header self p w1) = w1.
Proof.
  intros H Hne w1.
  pose proof (strip_keeps_input self p temp w H Hne) as Hread.
  fold w1 in Hread.
  destruct (strip_some self p temp w H)
    as (Et & data & wr & es & Hr & _ & Hfs & Hres).
  fold w1 in Hfs, Hres.
  destruct (strip_named self p w _ H) as [t' Ht'].
  destruct (with_suffix_ret _ _ _ Ht') as [Hv Hn].
  rewrite (with_suffix_stem p ".temp" Hv Hn), <- Et in Ht'.
  injection Ht' as <-.
  assert (Ht : with_suffix p ".temp" = Ret temp)
    by (now rewrite (with_suffix_stem p ".temp" Hv Hn), Et).
  rewrite (remove_encryption_header_run self p temp w1 Ht).
  rewrite Hread, Hr; unfold open_wb; rewrite Hres; cbn [res fs_after].
  split; [reflexivity|].
  rewrite Hfs at 1; now rewrite put_twice.
Qed.

Lemma remove_encryption_header_again_witness :
  let w := Samples.root_of [("A", Samples.good_folder)] in
  let w1 := fs_after (remove_encryption_header Samples.self
                        ["A"; "v080.m4s"] w) in
  res (remove_encryption_header Samples.self ["A"; "v080.m4s"] w1)
  = Ret (Some ["A"; "v080.temp"]) /\
  fs_after (remove_encryption_header Samples.self ["A"; "v080.m4s"] w1) = w1.
Proof.
  intros w w1.
  apply (remove_encryption_header_again Samples.self
           ["A"; "v080.m4s"] ["A"; "v080.temp"] w);
    [vm_compute; reflexivity | discriminate].
Defined.

(** X8.  [merge_video_audio] returns [True] exactly when [ffmpeg] returned,
    [False] when it raised [CalledProcessError] or [FileNotFoundError],
    telling the two apart in the log, and lets any other exception through;
    the file system it leaves is the one [ffmpeg] left. *)
Theorem merge_video_audio_outcomes
    (ffmpeg : path -> path -> path -> node -> outcome unit * node)
    (self : t) (v a o : path) (w : node) :
  let m := merge_video_audio ffmpeg self v a o w in
  fs_after m = snd (ffmpeg v a o w) /\
  match fst (ffmpeg v a o w) with
  | Ret _ => res m = Ret true /\ logged m = [MergeDone (name o)]
  | Raise CalledProcessError =>
      res m = Ret false /\ logged m = [MergeFailed; MergeStderr]
  | Raise FileNotFoundError =>
      res m = Ret false /\ logged m = [FfmpegNotFound]
  | Raise e => res m = Raise e /\ logged m = []
  end.
Proof.
  intros m; unfold m, merge_video_audio, try_catch.
  set (body := bind (act (ffmpeg v a o)) _).
  assert (Hb : body w
               = match fst (ffmpeg v a o w) with
                 | Ret _ => Run (Ret true) (snd (ffmpeg v a o w))
                              [MergeDone (name o)]
                 | Raise e => Run (Raise e) (snd (ffmpeg v a o w)) []
                 end).
  { unfold body, bind, act, log, ret; cbn [res fs_after logged app].
    now destruct (fst (ffmpeg v a o w)). }
  rewrite Hb; destruct (fst (ffmpeg v a o w)) as [[]|e];
    [split; [reflexivity | split; reflexivity]|].
  destruct e; cbn [res fs_after logged];
    unfold bind, log, ret; cbn [res fs_after logged app];
    split; try reflexivity; split; reflexivity.
Qed.

End StripperMore.

(** * The conversion that goes through *)

Module HappyPath.

Import PyStr PyStrFacts PurePath PurePathFacts FS FSFacts Notions RunFacts.
Import VideoConverter Pairer Stripper Converter Promotion Children Names.

Lemma open_child (w : node) (d : path) (wr : bool) (es : list (string * node))
    (c : string) :
  resolve w d = Ret (Dir wr es) ->
  not_dir (assoc c es) = true -> wr = true ->
  open_wb w (joinpath d c) = Ret tt.
Proof.
  intros Hd Hn ->; unfold open_wb.
  rewrite (resolve_child w d c true es Hd), parent_joinpath, Hd.
  now destruct (assoc c es) as [[|]|].
Qed.

(** The muxer call, run. *)
Lemma merge_video_audio_run
    (ffmpeg : path -> path -> path -> node -> outcome unit * node)
    (self : t) (v a o : path) (w : node) :
  handled (fst (ffmpeg v a o w)) = true ->
  res (merge_video_audio ffmpeg self v a o w)
  = Ret (negb (raised (fst (ffmpeg v a o w)))) /\
  fs_after (merge_video_audio ffmpeg self v a o w) = snd (ffmpeg v a o w).
Proof.
  unfold merge_video_audio, try_catch.
  set (body := bind (act (ffmpeg v a o)) _).
  assert (Hb : body w
               = match fst (ffmpeg v a o w) with
                 | Ret _ => Run (Ret true) (snd (ffmpeg v a o w))
                              [MergeDone (name o)]
                 | Raise e => Run (Raise e) (snd (ffmpeg v a o w)) []
                 end).
  { unfold body, bind, act, log, ret; cbn [res fs_after logged app].
    now destruct (fst (ffmpeg v a o w)). }
  rewrite Hb; destruct (fst (ffmpeg v a o w)) as [[]|e];
    [split; reflexivity|].
  destruct e; try discriminate; intros _; split; reflexivity.
Qed.

Lemma try_except_ret {A : Type} (m : M A) (h : exn -> M A) (w : node) (a : A) :
  res (m w) = Ret a -> try_except m h w = m w.
Proof. intros H; unfold try_except, try_catch; now rewrite H. Qed.

(** The two steps that bracket the muxer call, when they go through. *)
Lemma promote_ok (vt vmp4 at_ amp4 : path) (w w3 w4 : node) :
  rename w vt vmp4 = (Ret tt, w3) -> rename w3 at_ amp4 = (Ret tt, w4) ->
  promote vt vmp4 at_ amp4 w = Run (Ret None) w4 [].
Proof.
  intros H1 H2; unfold promote, bind, act, ret.
  cbn [res fs_after logged]; rewrite H1; cbn [fst snd res fs_after logged].
  rewrite H2; reflexivity.
Qed.

Lemma cleanup_ok (vmp4 amp4 : path) (w w6 w7 : node) :
  unlink w vmp4 = (Ret tt, w6) -> unlink w6 amp4 = (Ret tt, w7) ->
  cleanup vmp4 amp4 w = Run (Ret tt) w7 [].
Proof.
  intros H1 H2; unfold cleanup, bind, act.
  cbn [res fs_after logged]; rewrite H1; cbn [fst snd res fs_after logged].
  rewrite H2; reflexivity.
Qed.

(** Looking a name up after entries were set and deleted. *)
Ltac assoc_norm :=
  repeat first
    [ rewrite assoc_set_entry_same
    | rewrite assoc_del_entry_same
    | rewrite assoc_set_entry_other by congruence
    | rewrite assoc_del_entry_other by congruence ].

Section Run.

Variable ffmpeg : path -> path -> path -> node -> outcome unit * node.
Variable self : t.
Variables (folder : path) (es : list (string * node)) (w : node).
Variables (cv ca : string) (dv da : list byte).

Let sv := stem_of_name cv.
Let sa := stem_of_name ca.
Let tv := (sv ++ ".temp")%string.
Let ta := (sa ++ ".temp")%string.
Let mv := (sv ++ ".mp4")%string.
Let ma := (sa ++ ".mp4")%string.
Let V := File (skipn HEADER_LEN dv).
Let A := File (skipn HEADER_LEN da).
Let es4 :=
  set_entry ma A (del_entry ta (set_entry mv V (del_entry tv
    (set_entry ta A (set_entry tv V es))))).
Let w4 :=
  put (del (put (del (put (put w (joinpath folder tv) V) (joinpath folder ta) A)
                     (joinpath folder tv)) (joinpath folder mv) V)
           (joinpath folder ta)) (joinpath folder ma) A.
Let out := joinpath (output_dir self) (name folder ++ ".mp4")%string.
Let w5 := snd (ffmpeg (joinpath folder mv) (joinpath folder ma) out w4).

Hypothesis Hd : resolve w folder = Ret (Dir true es).
Hypothesis Hf : res (find_m4s_files self folder w)
                = Ret (Some (joinpath folder cv), Some (joinpath folder ca)).
Hypothesis Hcv : assoc cv es = Some (File dv).
Hypothesis Hca : assoc ca es = Some (File da).
Hypothesis Hfree :
  forallb (fun c => not_dir (assoc c es)) [tv; ta; mv; ma] = true.

(** The names in play are all different. *)
Lemma names_apart :
  sv <> "" /\ sa <> "" /\ cv <> "" /\ ca <> "" /\
  tv <> ta /\ mv <> ma /\ tv <> mv /\ tv <> ma /\ ta <> mv /\ ta <> ma /\
  cv <> tv /\ cv <> ta /\ cv <> mv /\ cv <> ma /\
  ca <> tv /\ ca <> ta /\ ca <> mv /\ ca <> ma.
Proof.
  destruct (find_m4s_files_some self folder _ _ w Hf) as (Iv & Ia & Vv & Aa).
  destruct (glob_ext_child w folder ".m4s" _ Iv) as (cv' & Ev & Xv).
  destruct (glob_ext_child w folder ".m4s" _ Ia) as (ca' & Ea & Xa).
  apply joinpath_inj in Ev; apply joinpath_inj in Ea; subst cv' ca'.
  pose proof (video_audio_stems _ _ Vv Aa) as Hs.
  unfold is_video, is_audio, stem in Vv, Aa, Hs.
  rewrite !name_joinpath in *; fold sv sa in Vv, Aa, Hs.
  apply endswith_spec in Xv as [pv Ev]; apply endswith_spec in Xa as [pa Ea].
  assert (H1 : tv <> ta) by (intros E; apply append_inv_tail in E; contradiction).
  assert (H2 : mv <> ma) by (intros E; apply append_inv_tail in E; contradiction).
  repeat split;
    try (now apply endswith_080_nonempty);
    try (now apply endswith_280_nonempty);
    try assumption;
    try apply append_temp_not_mp4;
    try (intros E; symmetry in E; revert E; apply append_temp_not_mp4);
    try (rewrite Ev; intros E; symmetry in E; revert E;
         first [apply append_temp_not_m4s | apply append_mp4_not_m4s]);
    try (rewrite Ea; intros E; symmetry in E; revert E;
         first [apply append_temp_not_m4s | apply append_mp4_not_m4s]);
    try (rewrite Ev; now destruct pv);
    try (rewrite Ea; now destruct pa).
Qed.

Hypothesis Hhandled :
  handled (fst (ffmpeg (joinpath folder mv) (joinpath folder ma) out w4)) = true.
Hypothesis Hmux : resolve w5 folder = resolve w4 folder.

(** The run, step by step: the folder's entries after the two strips and
    the two renames are [es4]; the muxer leaves them; the two unlinks take
    the promoted files out again. *)
Lemma convert_single_folder_goes_through :
  res (convert_single_folder ffmpeg self folder w)
  = Ret (negb (raised (fst (ffmpeg (joinpath folder mv) (joinpath folder ma)
                              out w4)))) /\
  fs_after (convert_single_folder ffmpeg self folder w)
  = del (del w5 (joinpath folder mv)) (joinpath folder ma) /\
  resolve (fs_after (convert_single_folder ffmpeg self folder w)) folder
  = Ret (Dir true (del_entry ma (del_entry mv es4))).
Proof.
  destruct names_apart as (Nsv & Nsa & Ncv & Nca & N1 & N2 & N3 & N4 & N5 & N6
                           & N7 & N8 & N9 & N10 & N11 & N12 & N13 & N14).
  simpl in Hfree; rewrite !andb_true_iff in Hfree.
  destruct Hfree as (Ftv & Fta & Fmv & Fma & _).
  set (v := joinpath folder cv) in *; set (a := joinpath folder ca) in *.
  set (vt := joinpath folder tv) in *; set (at_ := joinpath folder ta) in *.
  set (vmp4 := joinpath folder mv) in *; set (amp4 := joinpath folder ma) in *.
  (* the video strip *)
  assert (Tv : with_suffix v ".temp" = Ret vt).
  { unfold v, vt; rewrite with_suffix_stem; [|reflexivity|];
      unfold stem; rewrite ?parent_joinpath, ?name_joinpath; auto. }
  set (w1 := put w vt V).
  assert (R1 : remove_encryption_header self v w
               = Run (Ret (Some vt)) w1 [HeaderRemoved (name v)]).
  { rewrite (remove_encryption_header_run self v vt w Tv).
    unfold v at 1; rewrite (read_child w folder true es Hd cv), Hcv.
    unfold vt at 1; now rewrite (open_child w folder true es tv Hd Ftv eq_refl). }
  pose proof (resolve_put_parent w folder tv V true es Hd) as D1.
  fold vt w1 in D1; set (es1 := set_entry tv V es) in *.
  (* the audio strip *)
  assert (Ta : with_suffix a ".temp" = Ret at_).
  { unfold a, at_; rewrite with_suffix_stem; [|reflexivity|];
      unfold stem; rewrite ?parent_joinpath, ?name_joinpath; auto. }
  set (w2 := put w1 at_ A).
  assert (R2 : remove_encryption_header self a w1
               = Run (Ret (Some at_)) w2 [HeaderRemoved (name a)]).
  { rewrite (remove_encryption_header_run self a at_ w1 Ta).
    unfold a at 1; rewrite (read_child w1 folder true es1 D1 ca).
    unfold es1; assoc_norm; rewrite Hca.
    unfold at_ at 1; rewrite (open_child w1 folder true es1 ta D1); auto.
    unfold es1; now assoc_norm. }
  pose proof (resolve_put_parent w1 folder ta A true es1 D1) as D2.
  fold at_ w2 in D2; set (es2 := set_entry ta A es1) in *.
  (* the two renames *)
  assert (Mv : with_suffix vt ".mp4" = Ret vmp4)
    by (now apply with_suffix_temp_mp4).
  assert (Ma : with_suffix at_ ".mp4" = Ret amp4)
    by (now apply with_suffix_temp_mp4).
  set (w3 := put (del w2 vt) vmp4 V).
  assert (Rn1 : rename w2 vt vmp4 = (Ret tt, w3)).
  { unfold vt, vmp4.
    rewrite (rename_child w2 folder true es2 D2 tv mv (skipn HEADER_LEN dv));
      [| unfold es2, es1; now assoc_norm | assumption].
    unfold es2, es1; assoc_norm; now rewrite Fmv. }
  pose proof (resolve_put_parent _ folder mv V true _
                (resolve_del_parent w2 folder tv true es2 D2)) as D3.
  fold vt vmp4 w3 in D3; set (es3 := set_entry mv V (del_entry tv es2)) in *.
  assert (Rn2 : rename w3 at_ amp4 = (Ret tt, w4)).
  { unfold at_, amp4.
    rewrite (rename_child w3 folder true es3 D3 ta ma (skipn HEADER_LEN da));
      [| unfold es3, es2; now assoc_norm | assumption].
    unfold es3, es2, es1; assoc_norm; now rewrite Fma. }
  pose proof (resolve_put_parent _ folder ma A true _
                (resolve_del_parent w3 folder ta true es3 D3)) as D4.
  fold at_ amp4 in D4.
  change (resolve w4 folder = Ret (Dir true es4)) in D4.
  (* the muxer *)
  destruct (merge_video_audio_run ffmpeg self vmp4 amp4 out w4 Hhandled)
    as [Rm Fm].
  fold w5 in Fm.
  assert (D5 : resolve w5 folder = Ret (Dir true es4)) by (now rewrite Hmux).
  (* the cleanup *)
  assert (U1 : unlink w5 vmp4 = (Ret tt, del w5 vmp4)).
  { unfold vmp4.
    rewrite (unlink_child w5 folder true es4 D5 mv (skipn HEADER_LEN dv));
      [reflexivity|].
    unfold es4, es3, es2, es1; now assoc_norm. }
  pose proof (resolve_del_parent w5 folder mv true es4 D5) as D6.
  fold vmp4 in D6.
  assert (U2 : unlink (del w5 vmp4) amp4 = (Ret tt, del (del w5 vmp4) amp4)).
  { unfold amp4.
    rewrite (unlink_child _ folder true _ D6 ma (skipn HEADER_LEN da));
      [reflexivity|].
    unfold es4, es3, es2, es1; now assoc_norm. }
  pose proof (resolve_del_parent _ folder ma true _ D6) as D7.
  fold amp4 in D7.
  (* putting the steps together *)
  assert (Hrun :
    res (convert_single_folder ffmpeg self folder w)
    = Ret (negb (raised (fst (ffmpeg vmp4 amp4 out w4)))) /\
    fs_after (convert_single_folder ffmpeg self folder w)
    = del (del w5 vmp4) amp4).
  { pose proof (find_m4s_files_pure self folder w) as Hpure.
    unfold convert_single_folder.
    rewrite res_bind, fs_after_bind; cbn [log res fs_after].
    rewrite res_bind, fs_after_bind, Hf, Hpure.
    fold v a; rewrite res_bind, fs_after_bind, R1; cbn [res fs_after].
    rewrite res_bind, fs_after_bind, R2; cbn [res fs_after].
    rewrite Mv, Ma.
    rewrite res_bind, fs_after_bind; cbn [lift res fs_after].
    rewrite res_bind, fs_after_bind; cbn [lift res fs_after].
    rewrite res_bind, fs_after_bind.
    fold (promote vt vmp4 at_ amp4).
    rewrite (try_except_ret (promote vt vmp4 at_ amp4) _ w2 None)
      by (now rewrite (promote_ok vt vmp4 at_ amp4 w2 w3 w4 Rn1 Rn2)).
    rewrite (promote_ok vt vmp4 at_ amp4 w2 w3 w4 Rn1 Rn2); cbn [res fs_after].
    fold out.
    rewrite res_bind, fs_after_bind, Rm, Fm.
    rewrite res_bind, fs_after_bind.
    fold (cleanup vmp4 amp4).
    rewrite (try_except_ret (cleanup vmp4 amp4) _ w5 tt)
      by (now rewrite (cleanup_ok vmp4 amp4 w5 _ _ U1 U2)).
    rewrite (cleanup_ok vmp4 amp4 w5 _ _ U1 U2); cbn [res fs_after ret].
    split; reflexivity. }
  destruct Hrun as [Hres Hfs]; repeat split; try assumption.
  now rewrite Hfs.
Qed.

End Run.

Section Through.

Variable ffmpeg : path -> path -> path -> node -> outcome unit * node.
Variable self : t.
Variables (folder v a : path) (dv da : list byte) (w : node).

Let tv := (stem v ++ ".temp")%string.
Let ta := (stem a ++ ".temp")%string.
Let mv := (stem v ++ ".mp4")%string.
Let ma := (stem a ++ ".mp4")%string.
Let V := File (skipn HEADER_LEN dv).
Let A := File (skipn HEADER_LEN da).
Let w4 :=
  put (del (put (del (put (put w (joinpath folder tv) V) (joinpath folder ta) A)
                     (joinpath folder tv)) (joinpath folder mv) V)
           (joinpath folder ta)) (joinpath folder ma) A.
Let out := joinpath (output_dir self) (name folder ++ ".mp4")%string.
Let mux := ffmpeg (joinpath folder mv) (joinpath folder ma) out w4.
Let r := convert_single_folder ffmpeg self folder w.

Hypothesis Hpair : res (find_m4s_files self folder w) = Ret (Some v, Some a).
Hypothesis Hvideo : read_bytes w v = Ret dv.
Hypothesis Haudio : read_bytes w a = Ret da.
Hypothesis Hwritable : dir_writable w folder = true.
Hypothesis Hfree :
  forallb (fun c => negb (is_dir w (joinpath folder c))) [tv; ta; mv; ma] = true.
Hypothesis Hhandled : handled (fst mux) = true.
Hypothesis Hmux : resolve (snd mux) folder = resolve w4 folder.

(** The hypotheses, brought to the folder's entries. *)
Lemma through_entries :
  exists es,
    res (find_m4s_files self folder w)
    = Ret (Some (joinpath folder (name v)), Some (joinpath folder (name a))) /\
    resolve w folder = Ret (Dir true es) /\
    assoc (name v) es = Some (File dv) /\
    assoc (name a) es = Some (File da) /\
    forallb (fun c => not_dir (assoc c es)) [tv; ta; mv; ma] = true.
Proof.
  destruct (find_m4s_files_some self folder v a w Hpair) as (Iv & Ia & _ & _).
  destruct (glob_ext_child w folder ".m4s" v Iv) as (cv & Ev & _).
  destruct (glob_ext_child w folder ".m4s" a Ia) as (ca & Ea & _).
  assert (Nv : name v = cv) by (rewrite Ev; apply name_joinpath).
  assert (Na : name a = ca) by (rewrite Ea; apply name_joinpath).
  unfold dir_writable in Hwritable.
  destruct (resolve w folder) as [[|wr es]|] eqn:Hd; try discriminate.
  subst wr; exists es; rewrite Nv, Na; repeat split.
  - now rewrite <- Ev, <- Ea.
  - rewrite Ev, (read_child w folder true es Hd cv) in Hvideo.
    destruct (assoc cv es) as [[|]|]; congruence.
  - rewrite Ea, (read_child w folder true es Hd ca) in Haudio.
    destruct (assoc ca es) as [[|]|]; congruence.
  - rewrite forallb_forall in *; intros c Hc; specialize (Hfree c Hc).
    unfold is_dir in Hfree; rewrite (resolve_child w folder c true es Hd) in Hfree.
    now destruct (assoc c es) as [[|]|].
Qed.

Lemma through_result :
  res r = Ret (negb (raised (fst mux))) /\
  fs_after r = del (del (snd mux) (joinpath folder mv)) (joinpath folder ma) /\
  resolve w4 (joinpath folder mv) = Ret V /\
  resolve w4 (joinpath folder ma) = Ret A.
Proof.
  destruct through_entries as (es & Hp & Hd & Hcv & Hca & Hes).
  destruct (convert_single_folder_goes_through ffmpeg self folder es w
              (name v) (name a) dv da Hd Hp Hcv Hca Hes Hhandled Hmux)
    as (Hres & Hfs & _).
  split; [exact Hres|]; split; [exact Hfs|].
  destruct (names_apart self folder w (name v) (name a) Hp)
    as (_ & _ & _ & _ & _ & N2 & _).
  fold (stem v) (stem a) in N2; fold mv ma in N2.
  pose proof (resolve_put_parent w folder tv V true es Hd) as D1.
  pose proof (resolve_put_parent _ folder ta A true _ D1) as D2.
  pose proof (resolve_put_parent _ folder mv V true _
                (resolve_del_parent _ folder tv true _ D2)) as D3.
  pose proof (resolve_del_parent _ folder ta true _ D3) as D3'.
  split.
  - unfold w4; rewrite (resolve_put_sibling' _ folder ma mv A _ _ D3')
      by congruence.
    rewrite (resolve_del_sibling' _ folder ta mv _ _ D3)
      by (apply append_temp_not_mp4).
    eapply resolve_put_same; eapply resolve_del_parent; exact D2.
  - unfold w4; eapply resolve_put_same; exact D3'.
Qed.

Lemma through_folder (c : string) (q : path) :
  resolve (fs_after r) (folder ++ c :: q) =
  if existsb (String.eqb c) [tv; ta; mv; ma] then Raise FileNotFoundError
  else resolve w (folder ++ c :: q).
Proof.
  destruct through_entries as (es & Hp & Hd & Hcv & Hca & Hes).
  destruct (convert_single_folder_goes_through ffmpeg self folder es w
              (name v) (name a) dv da Hd Hp Hcv Hca Hes Hhandled Hmux)
    as (_ & _ & Hfolder).
  fold r in Hfolder.
  destruct (names_apart self folder w (name v) (name a) Hp)
    as (_ & _ & _ & _ & N1 & N2 & N3 & N4 & N5 & N6 & _).
  rewrite !resolve_app, Hfolder, Hd; cbn [resolve existsb].
  unfold tv, ta, mv, ma, stem.
  set (nv := stem_of_name (name v)) in *; set (na := stem_of_name (name a)) in *.
  destruct (String.eqb_spec c (nv ++ ".temp")) as [->|C1];
    [cbn [orb]; now assoc_norm|].
  destruct (String.eqb_spec c (na ++ ".temp")) as [->|C2];
    [cbn [orb]; now assoc_norm|].
  destruct (String.eqb_spec c (nv ++ ".mp4")) as [->|C3];
    [cbn [orb]; now assoc_norm|].
  destruct (String.eqb_spec c (na ++ ".mp4")) as [->|C4];
    [cbn [orb]; now assoc_norm|].
  cbn [orb]; now assoc_norm.
Qed.

End Through.

(** X9.  A conversion that goes through: [convert_single_folder] returns
    [True] exactly when the muxer returned; the muxer is called on the two
    promoted files, which hold the fragments' bytes without the 9-byte
    header; and the file system left is the one the muxer left less the two
    promoted files. *)
Theorem convert_single_folder_succeeds
    (ffmpeg : path -> path -> path -> node -> outcome unit * node)
    (self : t) (folder v a : path) (dv da : list byte) (w : node) :
  goes_through ffmpeg self folder v a dv da w ->
  let mux := mux_call ffmpeg self folder v a dv da w in
  let r := convert_single_folder ffmpeg self folder w in
  res r = Ret (negb (raised (fst mux))) /\
  fs_after r = del (del (snd mux) (joinpath folder (mp4_name v)))
                   (joinpath folder (mp4_name a)) /\
  read_bytes (staged w folder v a dv da) (joinpath folder (mp4_name v))
  = Ret (skipn HEADER_LEN dv) /\
  read_bytes (staged w folder v a dv da) (joinpath folder (mp4_name a))
  = Ret (skipn HEADER_LEN da).
Proof.
  intros (H1 & H2 & H3 & H4 & H5 & H6 & H7) mux r.
  destruct (through_result ffmpeg self folder v a dv da w H1 H2 H3 H4 H5 H6 H7)
    as (Hres & Hfs & Hv & Ha).
  split; [exact Hres|]; split; [exact Hfs|].
  unfold read_bytes, staged, mp4_name, temp_name.
  now rewrite Hv, Ha.
Qed.

(** X10.  After a conversion that goes through, the folder holds no
    intermediate file: none of the four names [stem.temp], [stem.mp4]
    resolves any more, not even one that was there before the conversion,
    and everything else in the folder, the two fragments included, is as
    it was. *)
Theorem convert_single_folder_leaves_folder_clean
    (ffmpeg : path -> path -> path -> node -> outcome unit * node)
    (self : t) (folder v a : path) (dv da : list byte) (w : node)
    (c : string) (q : path) :
  goes_through ffmpeg self folder v a dv da w ->
  resolve (fs_after (convert_single_folder ffmpeg self folder w))
          (folder ++ c :: q) =
  if existsb (String.eqb c) (intermediates v a) then Raise FileNotFoundError
  else resolve w (folder ++ c :: q).
Proof.
  intros (H1 & H2 & H3 & H4 & H5 & H6 & H7).
  exact (through_folder ffmpeg self folder v a dv da w H1 H2 H3 H4 H5 H6 H7 c q).
Qed.

(** X11.  A folder that does not pair is left as it was:
    [convert_single_folder] returns [False] without writing anything, and
    logs only the folder's name and what the pairing logged. *)
Theorem convert_single_folder_unpaired
    (ffmpeg : path -> path -> path -> node -> outcome unit * node)
    (self : t) (folder : path) (w : node) :
  res (find_m4s_files self folder w) = Ret (None, None) ->
  res (convert_single_folder ffmpeg self folder w) = Ret false /\
  fs_after (convert_single_folder ffmpeg self folder w) = w /\
  logged (convert_single_folder ffmpeg self folder w)
  = FolderStart (name folder) :: logged (find_m4s_files self folder w).
Proof.
  intros Hf.
  pose proof (find_m4s_files_pure self folder w) as Hpure.
  unfold convert_single_folder.
  rewrite (bind_ret_l (log (FolderStart (name folder))) _ w tt eq_refl).
  cbn [log res fs_after logged].
  rewrite (bind_ret_l _ _ w (None, None) Hf); cbn [ret res fs_after logged].
  rewrite Hpure, app_nil_r; repeat split; reflexivity.
Qed.

Lemma convert_single_folder_unpaired_witness :
  let w := Samples.root_of [("A", Samples.one_fragment_folder)] in
  res (convert_single_folder Samples.mux_concat Samples.self ["A"] w)
  = Ret false /\
  fs_after (convert_single_folder Samples.mux_concat Samples.self ["A"] w) = w /\
  logged (convert_single_folder Samples.mux_concat Samples.self ["A"] w)
  = FolderStart (name ["A"]) :: logged (find_m4s_files Samples.self ["A"] w).
Proof.
  intros w; apply convert_single_folder_unpaired; vm_compute; reflexivity.
Defined.

Lemma convert_single_folder_succeeds_witness :
  let w := Samples.root_of [("A", Samples.good_folder)] in
  let v := ["A"; "v080.m4s"] in
  let a := ["A"; "a280.m4s"] in
  let dv := Samples.header ++ Samples.video_payload in
  let da := Samples.header ++ Samples.audio_payload in
  let mux := mux_call Samples.mux_concat Samples.self ["A"] v a dv da w in
  let r := convert_single_folder Samples.mux_concat Samples.self ["A"] w in
  res r = Ret (negb (raised (fst mux))) /\
  fs_after r = del (del (snd mux) (joinpath ["A"] (mp4_name v)))
                   (joinpath ["A"] (mp4_name a)) /\
  read_bytes (staged w ["A"] v a dv da) (joinpath ["A"] (mp4_name v))
  = Ret (skipn HEADER_LEN dv) /\
  read_bytes (staged w ["A"] v a dv da) (joinpath ["A"] (mp4_name a))
  = Ret (skipn HEADER_LEN da).
Proof.
  intros w v a dv da.
  apply (convert_single_folder_succeeds Samples.mux_concat Samples.self
           ["A"] v a dv da w).
  repeat split; vm_compute; reflexivity.
Defined.

Lemma convert_single_folder_leaves_folder_clean_witness :
  let w := Samples.root_of [("A", Samples.crowded_folder)] in
  let w' := fs_after (convert_single_folder Samples.mux_concat Samples.self
                        ["A"] w) in
  resolve w ["A"; "v080.mp4"] = Ret (File [x09]) /\
  resolve w' ["A"; "v080.mp4"] = Raise FileNotFoundError /\
  resolve w' ["A"; "cover.jpg"] = resolve w ["A"; "cover.jpg"].
Proof.
  intros w w'; split; [vm_compute; reflexivity|]; split.
  - apply (convert_single_folder_leaves_folder_clean Samples.mux_concat
             Samples.self ["A"] ["A"; "v080.m4s"] ["A"; "a280.m4s"]
             (Samples.header ++ Samples.video_payload)
             (Samples.header ++ Samples.audio_payload) w "v080.mp4" []).
    repeat split; vm_compute; reflexivity.
  - apply (convert_single_folder_leaves_folder_clean Samples.mux_concat
             Samples.self ["A"] ["A"; "v080.m4s"] ["A"; "a280.m4s"]
             (Samples.header ++ Samples.video_payload)
             (Samples.header ++ Samples.audio_payload) w "cover.jpg" []).
    repeat split; vm_compute; reflexivity.
Defined.

End HappyPath.

(** * More about construction *)

Module ConstructionMore.

Import PyStr PyStrFacts PurePath PurePathFacts FS FSFacts Notions RunFacts.
Import VideoConverter Converter Promotion Children Construction.

(** [mkdir(exist_ok=True)] on a directory that is there. *)
Lemma mkdir_existing (w : node) (d : path) (c : string) :
  is_dir w (joinpath d c) = true ->
  mkdir w (joinpath d c) true = (Ret tt, w).
Proof.
  intros H; unfold mkdir, os_mkdir.
  destruct (joinpath d c) as [|x l] eqn:E; [now destruct d|].
  rewrite <- E in *; rewrite parent_joinpath.
  assert (Hr : exists n, resolve w (joinpath d c) = Ret n).
  { unfold is_dir in H; destruct (resolve w (joinpath d c)); [eauto|discriminate]. }
  destruct Hr as [n Hr].
  destruct (resolve_parent_dir w d c n Hr) as (wr & es & Hd & _).
  now rewrite Hd, Hr, H.
Qed.

(** X12.  Construction is idempotent: where [converted_videos] is already
    a directory [__init__] returns without changing anything, so that a
    second construction after a first one that returned gives the same
    converter and leaves the file system of the first. *)
Theorem init_idempotent (d : path) (w : node) :
  (is_dir w (joinpath d "converted_videos") = true ->
   __init__ d w = Run (Ret (Build d (joinpath d "converted_videos"))) w []) /\
  (forall self,
     res (__init__ d w) = Ret self ->
     __init__ d (fs_after (__init__ d w))
     = Run (Ret self) (fs_after (__init__ d w)) []).
Proof.
  assert (Hex : forall w', is_dir w' (joinpath d "converted_videos") = true ->
                __init__ d w'
                = Run (Ret (Build d (joinpath d "converted_videos"))) w' []).
  { intros w' H; rewrite init_run; cbv zeta.
    now rewrite (mkdir_existing w' d "converted_videos" H). }
  split; [apply Hex|].
  intros self Hs; rewrite init_run in Hs; cbv zeta in Hs; cbn [res] in Hs.
  destruct (fst (mkdir w (joinpath d "converted_videos") true)) as [[]|e] eqn:Em;
    [|discriminate].
  injection Hs as <-.
  rewrite (init_run d w); cbv zeta; cbn [fs_after].
  apply Hex; now apply mkdir_ok.
Qed.

Lemma init_idempotent_witness :
  let w := Dir true [("A", Samples.good_folder)] in
  __init__ [] (fs_after (__init__ [] w))
  = Run (Ret (Build [] ["converted_videos"])) (fs_after (__init__ [] w)) [].
Proof.
  intros w.
  apply (proj2 (init_idempotent [] w) (Build [] ["converted_videos"])).
  vm_compute; reflexivity.
Defined.

(** X13.  Where [converted_videos] does not exist and the input root is a
    writable directory, [__init__] creates it, empty, and touches nothing
    else under the root. *)
Theorem init_creates_only_output_dir (d : path) (w : node) :
  exists_ w (joinpath d "converted_videos") = false ->
  dir_writable w d = true ->
  let w' := fs_after (__init__ d w) in
  res (__init__ d w) = Ret (Build d (joinpath d "converted_videos")) /\
  resolve w' (joinpath d "converted_videos") = Ret (Dir true []) /\
  forall c q, c <> "converted_videos" ->
              resolve w' (d ++ c :: q) = resolve w (d ++ c :: q).
Proof.
  intros He Hw; cbv zeta; unfold exists_, dir_writable in *.
  destruct (resolve w d) as [[|wr es]|] eqn:Hd; try discriminate; subst wr.
  rewrite init_run; cbv zeta; unfold mkdir, os_mkdir.
  destruct (joinpath d "converted_videos") as [|x l] eqn:E; [now destruct d|].
  rewrite <- E in *; rewrite parent_joinpath, Hd.
  destruct (resolve w (joinpath d "converted_videos")) as [n|e];
    [discriminate|].
  cbn [fst snd res fs_after]; split; [reflexivity|]; split.
  - eapply resolve_put_same; eauto.
  - intros c q Hc; eapply resolve_put_sibling; eauto.
Qed.

Lemma init_creates_only_output_dir_witness :
  let w := Dir true [("A", Samples.good_folder)] in
  let w' := fs_after (__init__ [] w) in
  res (__init__ [] w) = Ret (Build [] ["converted_videos"]) /\
  resolve w' ["converted_videos"] = Ret (Dir true []) /\
  resolve w' ["A"; "v080.m4s"] = resolve w ["A"; "v080.m4s"].
Proof.
  intros w w'.
  destruct (init_creates_only_output_dir [] w) as (H1 & H2 & H3);
    try (vm_compute; reflexivity).
  split; [exact H1|]; split; [exact H2|].
  apply (H3 "A" ["v080.m4s"]); discriminate.
Defined.

(** X14.  Construction fails, and changes nothing, when a regular file is
    named [converted_videos] ([exist_ok] only covers a directory) and when
    the directory has to be created in an input root that is not
    writable. *)
Theorem init_fails (d : path) (w : node) :
  ((exists data, resolve w (joinpath d "converted_videos") = Ret (File data)) ->
   __init__ d w = Run (Raise FileExistsError) w []) /\
  (exists_ w (joinpath d "converted_videos") = false ->
   is_dir w d = true -> dir_writable w d = false ->
   __init__ d w = Run (Raise PermissionError) w []).
Proof.
  split.
  - intros [data Hf]; rewrite init_run; cbv zeta; unfold mkdir, os_mkdir.
    destruct (resolve_parent_dir w d _ _ Hf) as (wr & es & Hd & _).
    destruct (joinpath d "converted_videos") as [|x l] eqn:E; [now destruct d|].
    rewrite <- E in *; rewrite parent_joinpath, Hd, Hf.
    unfold is_dir; rewrite Hf; reflexivity.
  - unfold exists_, is_dir, dir_writable; intros He Hi Hw.
    destruct (resolve w d) as [[|wr es]|] eqn:Hd; try discriminate; subst wr.
    destruct (resolve w (joinpath d "converted_videos")) as [n|e] eqn:R;
      [discriminate|].
    assert (Hnd : is_dir w (joinpath d "converted_videos") = false)
      by (unfold is_dir; now rewrite R).
    rewrite init_run; cbv zeta; unfold mkdir, os_mkdir.
    destruct (joinpath d "converted_videos") as [|x l] eqn:E; [now destruct d|].
    rewrite <- E in *; rewrite parent_joinpath, Hd, R, Hnd; reflexivity.
Qed.

Lemma init_fails_witness :
  __init__ [] (Dir true [("converted_videos", File [])])
  = Run (Raise FileExistsError) (Dir true [("converted_videos", File [])]) [] /\
  __init__ [] (Dir false [("A", Samples.good_folder)])
  = Run (Raise PermissionError) (Dir false [("A", Samples.good_folder)]) [].
Proof.
  split.
  - apply (proj1 (init_fails [] _)); exists []; vm_compute; reflexivity.
  - apply (proj2 (init_fails [] _)); vm_compute; reflexivity.
Defined.

End ConstructionMore.

(** * More about the batch driver *)

Module BatchMore.

Import PyStr PyStrFacts PurePath PurePathFacts FS FSFacts Notions RunFacts.
Import VideoConverter Converter Promotion Driver Batch.

Lemma subseq_nil_l {A : Type} (l : list A) : subseq [] l.
Proof. induction l; constructor; assumption. Qed.

Lemma subseq_length {A : Type} (l l' : list A) :
  subseq l l' -> List.length l <= List.length l'.
Proof. induction 1; simpl; lia. Qed.

Lemma starts_app (l l' : list log_record) :
  starts (l ++ l') = starts l ++ starts l'.
Proof. apply filter_app. Qed.

Lemma from_steps_starts (l : list log_record) :
  Forall from_steps l -> starts l = [].
Proof.
  induction 1 as [|r l Hr _ IH]; [reflexivity|].
  unfold starts in *; simpl; rewrite IH.
  now destruct r.
Qed.

Section Order.

Variable ffmpeg : path -> path -> path -> node -> outcome unit * node.
Variable self : t.

Lemma convert_single_folder_starts (f : path) (w : node) :
  starts (logged (convert_single_folder ffmpeg self f w))
  = [FolderStart (name f)].
Proof.
  destruct (convert_single_folder_logged ffmpeg self f w) as (l & -> & Hl).
  unfold starts; simpl; fold (starts l); now rewrite from_steps_starts.
Qed.

Lemma convert_loop_starts (folders : list path) :
  forall (s n : nat) (w : node),
    subseq (starts (logged (convert_loop ffmpeg self folders s n w)))
           (map (fun f => FolderStart (name f)) (candidates folders)).
Proof.
  induction folders as [|f rest IH]; intros s n w; [constructor|].
  destruct (selected w f) eqn:Hsel.
  - pose proof (convert_loop_run ffmpeg self f rest s n w Hsel) as E.
    cbv zeta in E; rewrite E; clear E.
    assert (Hnm : negb (String.eqb (name f) "converted_videos") = true).
    { unfold selected in Hsel; now apply andb_true_iff in Hsel as [_ Hn]. }
    unfold candidates; cbn [filter]; rewrite Hnm; cbn [map].
    fold (candidates rest).
    pose proof (convert_single_folder_starts f w) as Hs.
    destruct (res (convert_single_folder ffmpeg self f w)) as [ok|e];
      cbn [logged].
    + rewrite starts_app, Hs; cbn [app].
      apply subseq_keep.
      replace (starts ((if ok then Converted (name f) else Failed (name f))
                       :: logged (convert_loop ffmpeg self rest
                                    (if ok then S s else s) (S n)
                                    (fs_after (convert_single_folder ffmpeg self f w)))))
        with (starts (logged (convert_loop ffmpeg self rest
                                (if ok then S s else s) (S n)
                                (fs_after (convert_single_folder ffmpeg self f w)))))
        by (now destruct ok).
      apply IH.
    + rewrite Hs; apply subseq_keep, subseq_nil_l.
  - rewrite (convert_loop_skip ffmpeg self f rest s n w Hsel); cbn [logged].
    unfold candidates; cbn [filter].
    destruct (negb (String.eqb (name f) "converted_videos")); cbn [map];
      [apply subseq_skip|]; apply IH.
Qed.

(** The loop over entries none of which is selected does nothing. *)
Lemma convert_loop_none (folders : list path) (s n : nat) (w : node) :
  forallb (fun f => negb (selected w f)) folders = true ->
  convert_loop ffmpeg self folders s n w = Run (Ret (s, n)) w [].
Proof.
  induction folders as [|f rest IH]; intros H; [reflexivity|].
  simpl in H; apply andb_true_iff in H as [Hf Hrest].
  apply negb_true_iff in Hf.
  now rewrite (convert_loop_skip ffmpeg self f rest s n w Hf), (IH Hrest).
Qed.

End Order.

(** X15.  When the input root is a regular file, [convert_all] does not
    take its return-0 branch (the path exists): the listing raises
    [NotADirectoryError] out of it, with nothing done or logged. *)
Theorem convert_all_on_a_file
    (ffmpeg : path -> path -> path -> node -> outcome unit * node)
    (self : t) (w : node) (data : list byte) :
  resolve w (input_dir self) = Ret (File data) ->
  convert_all ffmpeg self w = Run (Raise NotADirectoryError) w [].
Proof.
  intros H.
  rewrite convert_all_present by (unfold exists_; now rewrite H).
  unfold listdir; now rewrite H.
Qed.

Lemma convert_all_on_a_file_witness :
  let w := Dir true [("root", File [])] in
  convert_all Samples.mux_concat (Build ["root"] ["root"; "converted_videos"]) w
  = Run (Raise NotADirectoryError) w [].
Proof.
  intros w.
  apply (convert_all_on_a_file Samples.mux_concat
           (Build ["root"] ["root"; "converted_videos"]) w []).
  vm_compute; reflexivity.
Defined.

(** X16.  When the input root holds nothing to convert, only regular
    files and the folder named [converted_videos], [convert_all] returns 0,
    changes nothing, and logs the summary 0/0 and the output directory. *)
Theorem convert_all_nothing_to_do
    (ffmpeg : path -> path -> path -> node -> outcome unit * node)
    (self : t) (w : node) (folders : list path) :
  listdir w (input_dir self) = Ret folders ->
  forallb (fun f => negb (selected w f)) folders = true ->
  convert_all ffmpeg self w
  = Run (Ret 0) w [Summary 0 0; OutputDir (output_dir self)].
Proof.
  intros Hl Hn.
  assert (He : exists_ w (input_dir self) = true).
  { unfold exists_, listdir in *.
    destruct (resolve w (input_dir self)); [reflexivity | discriminate]. }
  rewrite (convert_all_present ffmpeg self w He), Hl; cbv zeta.
  now rewrite (convert_loop_none ffmpeg self folders 0 0 w Hn).
Qed.

Lemma convert_all_nothing_to_do_witness :
  let w := Dir true [("notes.txt", File [x01]);
                     ("converted_videos", Samples.good_folder)] in
  convert_all Samples.mux_concat Samples.self w
  = Run (Ret 0) w [Summary 0 0; OutputDir ["converted_videos"]].
Proof.
  intros w.
  apply (convert_all_nothing_to_do Samples.mux_concat Samples.self w
           [["notes.txt"]; ["converted_videos"]]);
    vm_compute; reflexivity.
Defined.

(** X17.  [convert_all] goes through the listing of the input root once,
    in order: the folders it starts on, read off the log, are entries of
    the listing other than [converted_videos], each started at most once
    per occurrence and in listing order; so it attempts no more folders
    than the listing has such entries. *)
Theorem convert_all_in_listing_order
    (ffmpeg : path -> path -> path -> node -> outcome unit * node)
    (self : t) (w : node) (folders : list path) :
  listdir w (input_dir self) = Ret folders ->
  subseq (starts (logged (convert_all ffmpeg self w)))
         (map (fun f => FolderStart (name f)) (candidates folders)) /\
  attempted (logged (convert_all ffmpeg self w))
  <= List.length (candidates folders).
Proof.
  intros Hl.
  assert (He : exists_ w (input_dir self) = true).
  { unfold exists_, listdir in *.
    destruct (resolve w (input_dir self)); [reflexivity | discriminate]. }
  assert (Hsub : subseq (starts (logged (convert_all ffmpeg self w)))
                   (map (fun f => FolderStart (name f)) (candidates folders))).
  { rewrite (convert_all_present ffmpeg self w He), Hl; cbv zeta.
    pose proof (convert_loop_starts ffmpeg self folders 0 0 w) as Hloop.
    destruct (res (convert_loop ffmpeg self folders 0 0 w)) as [c|e];
      cbn [logged]; [|exact Hloop].
    rewrite starts_app; unfold starts at 2; simpl; now rewrite app_nil_r. }
  split; [exact Hsub|].
  apply subseq_length in Hsub; now rewrite length_map in Hsub.
Qed.

Lemma convert_all_in_listing_order_witness :
  let w := Samples.root_of [("B", Samples.one_fragment_folder);
                            ("f.txt", File []);
                            ("A", Samples.good_folder)] in
  subseq (starts (logged (convert_all Samples.mux_concat Samples.self w)))
         [FolderStart "B"; FolderStart "f.txt"; FolderStart "A"] /\
  attempted (logged (convert_all Samples.mux_concat Samples.self w)) <= 3.
Proof.
  intros w.
  apply (convert_all_in_listing_order Samples.mux_concat Samples.self w
           [["B"]; ["f.txt"]; ["A"]; ["converted_videos"]]).
  vm_compute; reflexivity.
Defined.

End BatchMore.
